(** * TabSplit: the bill-split reconciliation engine

    A shallow embedding of the pure core of the TabSplit React application
    (receipt panel, chat panel and application state) together with the
    properties its specification states about it.

    Source map:
    - [recalculateBillSplit], [handleAssignmentChange], [handleReceiptEdit],
      [handleAddItem], [handleRemoveItem], [handleSaveReceipt]:
      the [ReceiptDisplay] component of the receipt panel;
    - [handleSendMessage]: the chat panel;
    - [updateBillSplit]: the Gemini service wrapper (its network call is an
      input of the model, see [ServiceReply]).

    React state is modelled by explicit state passing over [AppState]: every
    handler is a function from the state it sees to the state left by its
    [set...] calls. *)

From Stdlib Require Import List String Ascii Bool Arith ZArith Lia.
From Stdlib Require Import QArith Qcanon Field.
From Stdlib Require Import SpecFloat.
Import ListNotations.

Local Open Scope string_scope.
Local Open Scope list_scope.
Local Open Scope nat_scope.

(** ** JavaScript numbers

    The handlers use five operations on [number]: [+], [*], [/], the test
    [x === 0] and the default [x || 0]; array lengths and the literals [0]
    and [1] enter through [zero] and [ofNat].  The embedding is parametric in a type carrying these
    operations, so that the same definitions run on exact rationals
    (arithmetic without rounding) and on IEEE 754 binary64 values. *)

Class JsNumber (num : Type) : Type := {
  zero : num;
  add : num -> num -> num;
  mul : num -> num -> num;
  div : num -> num -> num;
  ofNat : nat -> num;
  isZero : num -> bool;
  orZero : num -> num
}.

(** ** Types (types.ts) *)

Record ReceiptItem (num : Type) : Type := mkReceiptItem {
  item_name : string;
  quantity : num;
  price : num;
  confidence_score : num;
  notes : option string
}.
Arguments mkReceiptItem {num} _ _ _ _ _.
Arguments item_name {num} _.
Arguments quantity {num} _.
Arguments price {num} _.
Arguments confidence_score {num} _.
Arguments notes {num} _.

Record ReceiptData (num : Type) : Type := mkReceiptData {
  items : list (ReceiptItem num);
  subtotal : num;
  tax : num;
  tip : num;
  total : num
}.
Arguments mkReceiptData {num} _ _ _ _ _.
Arguments items {num} _.
Arguments subtotal {num} _.
Arguments tax {num} _.
Arguments tip {num} _.
Arguments total {num} _.

(** [AssignedItem] and [PersonSplit] reuse the field names [item_name],
    [price], [items], [subtotal], [tax], [tip] and [total] of the receipt
    types; their projections carry the prefixes [a_] and [p_]. *)

Record AssignedItem (num : Type) : Type := mkAssignedItem {
  a_item_name : string;
  a_price : num
}.
Arguments mkAssignedItem {num} _ _.
Arguments a_item_name {num} _.
Arguments a_price {num} _.

Record PersonSplit (num : Type) : Type := mkPersonSplit {
  person_name : string;
  p_items : list (AssignedItem num);
  p_subtotal : num;
  p_tax : num;
  p_tip : num;
  p_total : num
}.
Arguments mkPersonSplit {num} _ _ _ _ _ _.
Arguments person_name {num} _.
Arguments p_items {num} _.
Arguments p_subtotal {num} _.
Arguments p_tax {num} _.
Arguments p_tip {num} _.
Arguments p_total {num} _.

Definition BillSplit (num : Type) : Type := list (PersonSplit num).

Inductive Sender : Type := user | bot | system.

Record ChatMessage : Type := mkChatMessage {
  sender : Sender;
  text : string
}.

(** The React state of [App] ([receiptData] ... [isReceiptEditing]) and the
    local state [editingReceiptData] of [ReceiptDisplay]. *)

Record AppState (num : Type) : Type := mkAppState {
  receiptData : option (ReceiptData num);
  billSplit : BillSplit num;
  chatMessages : list ChatMessage;
  isLoading : bool;
  error : option string;
  isReceiptEditing : bool;
  editingReceiptData : option (ReceiptData num)
}.
Arguments mkAppState {num} _ _ _ _ _ _ _.
Arguments receiptData {num} _.
Arguments billSplit {num} _.
Arguments chatMessages {num} _.
Arguments isLoading {num} _.
Arguments error {num} _.
Arguments isReceiptEditing {num} _.
Arguments editingReceiptData {num} _.

(** What the external split-update service does with one request: it
    answers with text that [JSON.parse] reads as a [BillSplit], with text
    that [JSON.parse] rejects, or the call itself fails with a message. *)

Inductive ServiceReply (num : Type) : Type :=
  | Parsed (proposal : BillSplit num)
  | Unparseable
  | Failed (message : string).
Arguments Parsed {num} _.
Arguments Unparseable {num}.
Arguments Failed {num} _.

(** One call of [handleReceiptEdit(field, value)]: the field path together
    with the value written to it. *)

Inductive ReceiptEdit (num : Type) : Type :=
  | Edit_item_name (index : nat) (value : string)
  | Edit_item_quantity (index : nat) (value : num)
  | Edit_item_price (index : nat) (value : num)
  | Edit_item_confidence_score (index : nat) (value : num)
  | Edit_item_notes (index : nat) (value : string)
  | Edit_items (value : list (ReceiptItem num))
  | Edit_subtotal (value : num)
  | Edit_tax (value : num)
  | Edit_tip (value : num)
  | Edit_total (value : num).
Arguments Edit_item_name {num} _ _.
Arguments Edit_item_quantity {num} _ _.
Arguments Edit_item_price {num} _ _.
Arguments Edit_item_confidence_score {num} _ _.
Arguments Edit_item_notes {num} _ _.
Arguments Edit_items {num} _.
Arguments Edit_subtotal {num} _.
Arguments Edit_tax {num} _.
Arguments Edit_tip {num} _.
Arguments Edit_total {num} _.

Section Engine.

Context {num : Type} {N : JsNumber num}.

(** *** Money allocation: [recalculateBillSplit] *)

(** The body of the [map] callback:
    [person.items.reduce((acc, item) => acc + item.price, 0)] and the
    proportional tax and tip. *)
Definition recalculatePerson (data : ReceiptData num) (person : PersonSplit num)
  : PersonSplit num :=
  let subtotal' :=
    fold_left (fun acc item => add acc (a_price item)) (p_items person) zero in
  let taxRatio := div subtotal' (subtotal data) in
  let tax' := mul (tax data) taxRatio in
  let tip' := mul (tip data) taxRatio in
  let total' := add (add subtotal' tax') tip' in
  {| person_name := person_name person;
     p_items := p_items person;
     p_subtotal := subtotal';
     p_tax := tax';
     p_tip := tip';
     p_total := total' |}.

(** [if (!data || data.subtotal === 0) return currentSplit;] then the map. *)
Definition recalculateBillSplit (data : option (ReceiptData num))
    (currentSplit : BillSplit num) : BillSplit num :=
  match data with
  | None => currentSplit
  | Some d =>
      if isZero (subtotal d) then currentSplit
      else map (recalculatePerson d) currentSplit
  end.

(** *** Manual assignment: [handleAssignmentChange] *)

(** [person.items = person.items.filter(i => i.item_name !== name)] *)
Definition removeItem (name : string) (person : PersonSplit num) : PersonSplit num :=
  {| person_name := person_name person;
     p_items := filter (fun i => negb (String.eqb (a_item_name i) name)) (p_items person);
     p_subtotal := p_subtotal person;
     p_tax := p_tax person;
     p_tip := p_tip person;
     p_total := p_total person |}.

(** One round of the [names.forEach] callback: [find] returns the first
    person with that name, whose [items] array gets the entry pushed; when
    there is none a fresh person is pushed at the end of [tempSplit] and
    receives the entry. *)
Fixpoint pushItem (name : string) (entry : AssignedItem num)
    (tempSplit : BillSplit num) : BillSplit num :=
  match tempSplit with
  | [] =>
      [ {| person_name := name; p_items := [entry];
           p_subtotal := zero; p_tax := zero; p_tip := zero; p_total := zero |} ]
  | person :: rest =>
      if String.eqb (person_name person) name
      then {| person_name := person_name person;
              p_items := p_items person ++ [entry];
              p_subtotal := p_subtotal person;
              p_tax := p_tax person;
              p_tip := p_tip person;
              p_total := p_total person |} :: rest
      else person :: pushItem name entry rest
  end.

(** The split handed to [setBillSplit] by [handleAssignmentChange].  The
    deep copy [JSON.parse(JSON.stringify(billSplit))] protects the React
    state from the in-place updates that follow; on values it is the
    identity for the finite numbers a split holds, and the model, which
    shares nothing, has no counterpart for it. *)
Definition assignItem (data : option (ReceiptData num)) (split : BillSplit num)
    (item : ReceiptItem num) (names : list string) : BillSplit num :=
  let tempSplit := map (removeItem (item_name item)) split in
  let tempSplit :=
    if 0 <? List.length names then
      let pricePerPerson := div (price item) (ofNat (List.length names)) in
      fold_left
        (fun acc name =>
           pushItem name
             {| a_item_name := item_name item; a_price := pricePerPerson |} acc)
        names tempSplit
    else tempSplit in
  let tempSplit := filter (fun p => 0 <? List.length (p_items p)) tempSplit in
  recalculateBillSplit data tempSplit.

Definition assignmentMessage (item : ReceiptItem num) (names : list string) : string :=
  if 0 <? List.length names
  then ("Manually assigned " ++ item_name item ++ " to "
          ++ String.concat ", " names ++ ".")%string
  else ("Manually unassigned " ++ item_name item ++ ".")%string.

Definition handleAssignmentChange (item : ReceiptItem num) (names : list string)
    (st : AppState num) : AppState num :=
  {| receiptData := receiptData st;
     billSplit := assignItem (receiptData st) (billSplit st) item names;
     chatMessages :=
       chatMessages st ++ [ {| sender := system; text := assignmentMessage item names |} ];
     isLoading := isLoading st;
     error := error st;
     isReceiptEditing := isReceiptEditing st;
     editingReceiptData := editingReceiptData st |}.

Definition handleUnassignItem (item : ReceiptItem num) (st : AppState num)
  : AppState num :=
  handleAssignmentChange item [] st.

(** *** Chat-driven update: [updateBillSplit] and [handleSendMessage] *)

(** The promise returned by [updateBillSplit]: the parsed array, or the
    message of the error it rejects with. *)
Definition updateBillSplit (reply : ServiceReply num) : BillSplit num + string :=
  match reply with
  | Parsed proposal => inl proposal
  | Unparseable =>
      inr "The AI returned an invalid format. Please try rephrasing your command."
  | Failed message => inr message
  end.

(** White space removed by [String.prototype.trim], for the one-byte
    characters of the string model. *)
Definition isWhiteSpace (c : ascii) : bool :=
  let n := nat_of_ascii c in
  (n =? 9) || (n =? 10) || (n =? 11) || (n =? 12) || (n =? 13) || (n =? 32).

(** [!input.trim()]: the trimmed input is the empty string. *)
Fixpoint trimIsEmpty (input : string) : bool :=
  match input with
  | EmptyString => true
  | String c rest => isWhiteSpace c && trimIsEmpty rest
  end.

(** [handleSendMessage] run to completion against one reply of the
    service, with no other handler interleaved. *)
Definition handleSendMessage (input : string) (reply : ServiceReply num)
    (st : AppState num) : AppState num :=
  match receiptData st with
  | None => st
  | Some _ =>
      if trimIsEmpty input || isLoading st then st
      else
        let newUserMessage := {| sender := user; text := input |} in
        match updateBillSplit reply with
        | inl updatedSplit =>
            {| receiptData := receiptData st;
               billSplit := updatedSplit;
               chatMessages := chatMessages st ++ [newUserMessage];
               isLoading := false;
               error := None;
               isReceiptEditing := isReceiptEditing st;
               editingReceiptData := editingReceiptData st |}
        | inr message =>
            let errorMessage :=
              if String.eqb message "" then "An unknown error occurred." else message in
            {| receiptData := receiptData st;
               billSplit := billSplit st;
               chatMessages :=
                 (chatMessages st ++ [newUserMessage])
                   ++ [ {| sender := system; text := ("Error: " ++ errorMessage)%string |} ];
               isLoading := false;
               error := Some errorMessage;
               isReceiptEditing := isReceiptEditing st;
               editingReceiptData := editingReceiptData st |}
        end
  end.

(** *** Receipt edit transaction *)

(** [arr[index] = f(arr[index])] on an item of the draft; [None] when
    [arr[index]] is [undefined], where the assignment to one of its
    properties throws a [TypeError]. *)
Fixpoint updateAt {A : Type} (index : nat) (f : A -> A) (arr : list A)
  : option (list A) :=
  match arr, index with
  | [], _ => None
  | x :: rest, O => Some (f x :: rest)
  | x :: rest, S i =>
      match updateAt i f rest with
      | Some rest' => Some (x :: rest')
      | None => None
      end
  end.

Definition withItems (newData : ReceiptData num) (value : list (ReceiptItem num))
  : ReceiptData num :=
  {| items := value; subtotal := subtotal newData; tax := tax newData;
     tip := tip newData; total := total newData |}.

Definition editItem (index : nat) (f : ReceiptItem num -> ReceiptItem num)
    (newData : ReceiptData num) : option (ReceiptData num) :=
  match updateAt index f (items newData) with
  | Some items' => Some (withItems newData items')
  | None => None
  end.

(** The two branches of [handleReceiptEdit] that write [value] at
    [field]: [(newData.items[index] as any)[key] = value] for a path
    [items.<index>.<key>], [(newData as any)[field] = value] otherwise. *)
Definition writeField (edit : ReceiptEdit num) (newData : ReceiptData num)
  : option (ReceiptData num) :=
  match edit with
  | Edit_item_name index value =>
      editItem index
        (fun it => mkReceiptItem value (quantity it) (price it)
                     (confidence_score it) (notes it)) newData
  | Edit_item_quantity index value =>
      editItem index
        (fun it => mkReceiptItem (item_name it) value (price it)
                     (confidence_score it) (notes it)) newData
  | Edit_item_price index value =>
      editItem index
        (fun it => mkReceiptItem (item_name it) (quantity it) value
                     (confidence_score it) (notes it)) newData
  | Edit_item_confidence_score index value =>
      editItem index
        (fun it => mkReceiptItem (item_name it) (quantity it) (price it)
                     value (notes it)) newData
  | Edit_item_notes index value =>
      editItem index
        (fun it => mkReceiptItem (item_name it) (quantity it) (price it)
                     (confidence_score it) (Some value)) newData
  | Edit_items value => Some (withItems newData value)
  | Edit_subtotal value =>
      Some (mkReceiptData (items newData) value (tax newData) (tip newData)
              (total newData))
  | Edit_tax value =>
      Some (mkReceiptData (items newData) (subtotal newData) value (tip newData)
              (total newData))
  | Edit_tip value =>
      Some (mkReceiptData (items newData) (subtotal newData) (tax newData) value
              (total newData))
  | Edit_total value =>
      Some (mkReceiptData (items newData) (subtotal newData) (tax newData)
              (tip newData) value)
  end.

(** [newData.total = (newData.subtotal || 0) + (newData.tax || 0)
    + (newData.tip || 0)] *)
Definition autoUpdateTotal (newData : ReceiptData num) : ReceiptData num :=
  {| items := items newData;
     subtotal := subtotal newData;
     tax := tax newData;
     tip := tip newData;
     total :=
       add (add (orZero (subtotal newData)) (orZero (tax newData)))
           (orZero (tip newData)) |}.

Definition setEditingReceiptData (newData : option (ReceiptData num))
    (st : AppState num) : AppState num :=
  {| receiptData := receiptData st;
     billSplit := billSplit st;
     chatMessages := chatMessages st;
     isLoading := isLoading st;
     error := error st;
     isReceiptEditing := isReceiptEditing st;
     editingReceiptData := newData |}.

(** [handleReceiptEdit]: nothing happens without a draft; a [TypeError]
    in the write leaves the handler before [setEditingReceiptData]. *)
Definition handleReceiptEdit (edit : ReceiptEdit num) (st : AppState num)
  : AppState num :=
  match editingReceiptData st with
  | None => st
  | Some draft =>
      match writeField edit draft with
      | None => st
      | Some newData => setEditingReceiptData (Some (autoUpdateTotal newData)) st
      end
  end.

Definition newItem : ReceiptItem num :=
  {| item_name := ""; quantity := ofNat 1; price := zero;
     confidence_score := ofNat 1; notes := Some "Manually added" |}.

Definition handleAddItem (st : AppState num) : AppState num :=
  match editingReceiptData st with
  | None => st
  | Some draft => handleReceiptEdit (Edit_items (items draft ++ [newItem])) st
  end.

(** [arr.filter((_, i) => i !== index)] *)
Fixpoint removeAt {A : Type} (index : nat) (arr : list A) : list A :=
  match arr, index with
  | [], _ => []
  | _ :: rest, O => rest
  | x :: rest, S i => x :: removeAt i rest
  end.

Definition handleRemoveItem (index : nat) (st : AppState num) : AppState num :=
  match editingReceiptData st with
  | None => st
  | Some draft => handleReceiptEdit (Edit_items (removeAt index (items draft))) st
  end.

Definition receiptUpdatedNotice : ChatMessage :=
  {| sender := system;
     text := "Receipt updated. The bill split has been reset. Please provide new instructions." |}.

(** [handleSaveReceipt]; [confirmed] is the answer of [window.confirm]. *)
Definition handleSaveReceipt (confirmed : bool) (st : AppState num) : AppState num :=
  match editingReceiptData st with
  | None => st
  | Some draft =>
      if confirmed then
        {| receiptData := Some draft;
           billSplit := [];
           chatMessages := [receiptUpdatedNotice];
           isLoading := isLoading st;
           error := error st;
           isReceiptEditing := false;
           editingReceiptData := editingReceiptData st |}
      else st
  end.

(** *** Measures used by the statements (not part of the program) *)

Definition isEntryOf (name : string) (entry : AssignedItem num) : bool :=
  String.eqb (a_item_name entry) name.

(** The entries recorded for item [name] under one person. *)
Definition entriesOf (name : string) (person : PersonSplit num)
  : list (AssignedItem num) :=
  filter (isEntryOf name) (p_items person).

(** All entries recorded for item [name], across every person of the
    split, in order. *)
Definition allEntriesOf (name : string) (split : BillSplit num)
  : list (AssignedItem num) :=
  flat_map (entriesOf name) split.

(** Sum of a list of numbers, from the right. *)
Definition sumOf (xs : list num) : num := fold_right add zero xs.

(** The sum of the price portions recorded for item [name] in the split. *)
Definition portionTotal (name : string) (split : BillSplit num) : num :=
  sumOf (map a_price (allEntriesOf name split)).

(** The items of the person [find] would return for [name]. *)
Definition itemsHeldBy (name : string) (split : BillSplit num)
  : list (AssignedItem num) :=
  match find (fun p => String.eqb (person_name p) name) split with
  | Some person => p_items person
  | None => []
  end.

Definition hasItems (person : PersonSplit num) : Prop := p_items person <> [].

(** The test of the clearing [filter]: the entry is for another item. *)
Definition keeps (name : string) (entry : AssignedItem num) : bool :=
  negb (String.eqb (a_item_name entry) name).

(** No entry of the person refers to item [name]. *)
Definition clearOf (name : string) (person : PersonSplit num) : Prop :=
  forallb (keeps name) (p_items person) = true.

End Engine.

(** ** Exact numbers: the rationals in canonical form *)

#[export] Instance ExactNumber : JsNumber Qc := {|
  zero := 0%Qc;
  add := Qcplus;
  mul := Qcmult;
  div := Qcdiv;
  ofNat := fun n => Q2Qc (inject_Z (Z.of_nat n));
  isZero := fun x => Qeq_bool (this x) 0;
  orZero := fun x => x
|}.

(** ** IEEE 754 binary64, the [number] of JavaScript *)

Definition binary64 : Type := spec_float.

Definition b64_ofZ (m e : Z) : binary64 := binary_normalize 53 1024 m e false.

#[export] Instance Binary64Number : JsNumber binary64 := {|
  zero := S754_zero false;
  add := SFadd 53 1024;
  mul := SFmul 53 1024;
  div := SFdiv 53 1024;
  ofNat := fun n => b64_ofZ (Z.of_nat n) 0;
  isZero := fun x => match x with S754_zero _ => true | _ => false end;
  orZero := fun x =>
    match x with
    | S754_zero _ | S754_nan => S754_zero false
    | _ => x
    end
|}.

(** A rational literal of the exact model. *)
Definition exact (n : Z) (d : positive) : Qc := Q2Qc (n # d).

(** A binary64 literal [m * 2 ^ e], rounded to nearest even. *)
Definition b64 (m e : Z) : binary64 := b64_ofZ m e.

(** The draft's total is the sum of its three aggregate fields. *)
Definition totalIsDerived (draft : ReceiptData Qc) : Prop :=
  total draft = (subtotal draft + tax draft + tip draft)%Qc.

(** The state holds a draft whose total is derived. *)
Definition draftTotalIsDerived (st : AppState Qc) : Prop :=
  exists draft, editingReceiptData st = Some draft /\ totalIsDerived draft.

(** The item an edit path [items.<index>.<key>] refers to exists in the
    draft (always so for the paths the rendered item rows produce). *)
Definition editInRange {num : Type} (edit : ReceiptEdit num)
    (draft : ReceiptData num) : Prop :=
  match edit with
  | Edit_item_name index _
  | Edit_item_quantity index _
  | Edit_item_price index _
  | Edit_item_confidence_score index _
  | Edit_item_notes index _ => index < List.length (items draft)
  | _ => True
  end.

(** ** Sample data

    The receipt of the specification's end-to-end scenario (Nachos, 15.00,
    tax 1.50, tip 0.75) and the receipt of its proportionality example
    (subtotal 100, tax 10, tip 5), in both number models. *)

Module Sample.

Definition nachos : ReceiptItem Qc :=
  mkReceiptItem "Nachos" (exact 1 1) (exact 15 1) (exact 1 1) None.

Definition nachosReceipt : ReceiptData Qc :=
  mkReceiptData [nachos] (exact 15 1) (exact 3 2) (exact 3 4) (exact 69 4).

Definition burger : ReceiptItem Qc :=
  mkReceiptItem "Burger" (exact 1 1) (exact 25 1) (exact 1 1) None.

Definition dinnerReceipt : ReceiptData Qc :=
  mkReceiptData [burger] (exact 100 1) (exact 10 1) (exact 5 1) (exact 115 1).

Definition freeReceipt : ReceiptData Qc :=
  mkReceiptData [] 0%Qc (exact 10 1) (exact 5 1) (exact 15 1).

Definition aliceBurger : PersonSplit Qc :=
  mkPersonSplit "Alice" [mkAssignedItem "Burger" (exact 25 1)]
    0%Qc 0%Qc 0%Qc 0%Qc.

Definition session (receipt : ReceiptData Qc) (draft : option (ReceiptData Qc))
  : AppState Qc :=
  mkAppState (Some receipt) [aliceBurger]
    [mkChatMessage user "Alice had the burger"] false None true draft.

Definition nachosF : ReceiptItem binary64 :=
  mkReceiptItem "Nachos" (b64 1 0) (b64 15 0) (b64 1 0) None.

Definition nachosReceiptF : ReceiptData binary64 :=
  mkReceiptData [nachosF] (b64 15 0) (b64 3 (-1)) (b64 3 (-2)) (b64 69 (-2)).

Definition burgerF : ReceiptItem binary64 :=
  mkReceiptItem "Burger" (b64 1 0) (b64 25 0) (b64 1 0) None.

Definition dinnerReceiptF : ReceiptData binary64 :=
  mkReceiptData [burgerF] (b64 100 0) (b64 10 0) (b64 5 0) (b64 115 0).

(** A proposal of the service whose money fields were left at zero. *)
Definition aliceBurgerF : PersonSplit binary64 :=
  mkPersonSplit "Alice" [mkAssignedItem "Burger" (b64 25 0)]
    (b64 0 0) (b64 0 0) (b64 0 0) (b64 0 0).

(** A proposal of the service that lists a person holding nothing. *)
Definition bobNothingF : PersonSplit binary64 :=
  mkPersonSplit "Bob" [] (b64 0 0) (b64 0 0) (b64 0 0) (b64 0 0).

Definition sessionF : AppState binary64 :=
  mkAppState (Some dinnerReceiptF) [] [] false None false None.

(** The very same three people after recalculation: 5.00, 0.50, 0.25 and
    5.75 each. *)
Definition nachosShare (name : string) : PersonSplit binary64 :=
  mkPersonSplit name [mkAssignedItem "Nachos" (b64 5 0)]
    (b64 5 0) (b64 1 (-1)) (b64 1 (-2)) (b64 23 (-2)).

Definition mintF : ReceiptItem binary64 :=
  mkReceiptItem "Mint" (b64 1 0) (b64 1 0) (b64 1 0) None.

End Sample.

(** ** The rest of the receipt panel, the chat panel and the application *)

(** The local state of [ReceiptPanel], around the application state its
    props give access to. *)

Record PanelState (num : Type) : Type := mkPanelState {
  app : AppState num;
  editingIndex : option nat;
  assigneeInput : string
}.
Arguments mkPanelState {num} _ _ _.
Arguments app {num} _.
Arguments editingIndex {num} _.
Arguments assigneeInput {num} _.

(** What the receipt-extraction service does with one upload. *)

Inductive ExtractionReply (num : Type) : Type :=
  | ParsedReceipt (parsedData : ReceiptData num)
  | UnparseableReceipt
  | FailedExtraction (message : string).
Arguments ParsedReceipt {num} _.
Arguments UnparseableReceipt {num}.
Arguments FailedExtraction {num} _.

(** One user action on an open draft. *)

Inductive DraftAction (num : Type) : Type :=
  | DoEdit (edit : ReceiptEdit num)
  | DoAddItem
  | DoRemoveItem (index : nat).
Arguments DoEdit {num} _.
Arguments DoAddItem {num}.
Arguments DoRemoveItem {num} _.

(** One user action that neither commits a receipt nor resets the
    session. *)

Inductive SessionAction (num : Type) : Type :=
  | DoSend (input : string) (reply : ServiceReply num)
  | DoAssign (item : ReceiptItem num) (names : list string)
  | DoDraft (action : DraftAction num)
  | DoDeclineSave
  | DoDeclineNewTab.
Arguments DoSend {num} _ _.
Arguments DoAssign {num} _ _.
Arguments DoDraft {num} _.
Arguments DoDeclineSave {num}.
Arguments DoDeclineNewTab {num}.

(** *** Strings: [split(',')], [trim] *)

(** [s.split(',')] *)
Fixpoint splitComma (s : string) : list string :=
  match s with
  | EmptyString => [EmptyString]
  | String c rest =>
      if Ascii.eqb c "," then EmptyString :: splitComma rest
      else
        match splitComma rest with
        | piece :: pieces => String c piece :: pieces
        | [] => [String c EmptyString]
        end
  end.

Fixpoint trimStart (s : string) : string :=
  match s with
  | EmptyString => EmptyString
  | String c rest => if isWhiteSpace c then trimStart rest else s
  end.

Fixpoint trimEnd (s : string) : string :=
  match s with
  | EmptyString => EmptyString
  | String c rest =>
      match trimEnd rest with
      | EmptyString => if isWhiteSpace c then EmptyString else String c EmptyString
      | kept => String c kept
      end
  end.

(** [s.trim()], for the one-byte white space of [isWhiteSpace]. *)
Definition trim (s : string) : string := trimEnd (trimStart s).

(** [assigneeInput.split(',').map(name => name.trim()).filter(Boolean)] *)
Definition parseAssignees (input : string) : list string :=
  filter (fun name => negb (String.eqb name "")) (map trim (splitComma input)).

Fixpoint noComma (s : string) : bool :=
  match s with
  | EmptyString => true
  | String c rest => negb (Ascii.eqb c ",") && noComma rest
  end.

(** A name as [parseAssignees] produces them: not empty, no comma, no
    white space at either end. *)
Definition cleanName (name : string) : Prop :=
  name <> "" /\ noComma name = true /\ trim name = name.

(** A string that is empty or starts with a character that is not white
    space. *)
Definition startsClean (s : string) : Prop :=
  match s with
  | EmptyString => True
  | String c _ => isWhiteSpace c = false
  end.

(** Only white space and commas. *)
Fixpoint blankInput (s : string) : bool :=
  match s with
  | EmptyString => true
  | String c rest => (isWhiteSpace c || Ascii.eqb c ",") && blankInput rest
  end.

(** [result.split(',')[1]] of [fileToBase64]; [None] is [undefined]. *)
Definition base64OfDataUrl (result : string) : option string :=
  nth_error (splitComma result) 1.

(** The item index of an edit path [items.<index>.<key>]. *)
Definition editTarget {num : Type} (edit : ReceiptEdit num) : option nat :=
  match edit with
  | Edit_item_name index _
  | Edit_item_quantity index _
  | Edit_item_price index _
  | Edit_item_confidence_score index _
  | Edit_item_notes index _ => Some index
  | _ => None
  end.

(** All four money fields of the person are zero. *)
Definition zeroMoney {num : Type} {N : JsNumber num} (person : PersonSplit num) : Prop :=
  p_subtotal person = zero /\ p_tax person = zero
  /\ p_tip person = zero /\ p_total person = zero.

(** Two people with the same name and the same four money fields. *)
Definition sameMoney {num : Type} (person other : PersonSplit num) : Prop :=
  person_name person = person_name other
  /\ p_subtotal person = p_subtotal other /\ p_tax person = p_tax other
  /\ p_tip person = p_tip other /\ p_total person = p_total other.

(** *** [Map<string, string[]>] *)

(** A JavaScript [Map] from item names to arrays of names, as the list of
    its entries in insertion order. *)
Definition AssigneeMap : Type := list (string * list string).

(** [map.get(key)]; [None] is [undefined]. *)
Fixpoint mapGet (key : string) (map : AssigneeMap) : option (list string) :=
  match map with
  | [] => None
  | (k, v) :: rest => if String.eqb k key then Some v else mapGet key rest
  end.

(** [map.set(key, value)] *)
Fixpoint mapSet (key : string) (value : list string) (map : AssigneeMap)
  : AssigneeMap :=
  match map with
  | [] => [(key, value)]
  | (k, v) :: rest =>
      if String.eqb k key then (k, value) :: rest
      else (k, v) :: mapSet key value rest
  end.

(** [map.get(key) || []] *)
Definition getOrEmpty (key : string) (map : AssigneeMap) : list string :=
  match mapGet key map with
  | Some people => people
  | None => []
  end.

(** [if (!people.includes(name)) people.push(name)] *)
Definition pushUnique (people : list string) (name : string) : list string :=
  if existsb (String.eqb name) people then people else people ++ [name].

Section Panel.

Context {num : Type} {N : JsNumber num}.

(** *** [assignedItemsMap] *)

(** The body of the inner [forEach] of [assignedItemsMap]. *)
Definition recordHolder (name : string) (map : AssigneeMap)
    (entry : AssignedItem num) : AssigneeMap :=
  let people := getOrEmpty (a_item_name entry) map in
  let people := pushUnique people name in
  mapSet (a_item_name entry) people map.

Definition assignedItemsMap (split : BillSplit num) : AssigneeMap :=
  fold_left
    (fun map person => fold_left (recordHolder (person_name person)) (p_items person) map)
    split [].

(** [assignedItemsMap.get(item.item_name) || []], the [assignees] of a
    rendered item row. *)
Definition assigneesOf (name : string) (split : BillSplit num) : list string :=
  getOrEmpty name (assignedItemsMap split).

(** The names of the people holding item [name], once per entry, in the
    order of the split (a measure for the statements). *)
Definition holderSeq (name : string) (split : BillSplit num) : list string :=
  flat_map (fun person => map (fun _ => person_name person) (entriesOf name person)) split.

(** *** [handleEditClick], [handleSaveAssignment] *)

Definition handleEditClick (index : nat) (assignees : list string)
    (ps : PanelState num) : PanelState num :=
  {| app := app ps;
     editingIndex := Some index;
     assigneeInput := String.concat ", " assignees |}.

Definition handleSaveAssignment (item : ReceiptItem num) (ps : PanelState num)
  : PanelState num :=
  let names := parseAssignees (assigneeInput ps) in
  {| app := handleAssignmentChange item names (app ps);
     editingIndex := None;
     assigneeInput := "" |}.

(** *** Edit mode *)

Definition setIsReceiptEditing (value : bool) (st : AppState num) : AppState num :=
  {| receiptData := receiptData st;
     billSplit := billSplit st;
     chatMessages := chatMessages st;
     isLoading := isLoading st;
     error := error st;
     isReceiptEditing := value;
     editingReceiptData := editingReceiptData st |}.

(** The effect of [ReceiptDisplay] on [isReceiptEditing] and [data]: in
    edit mode the draft becomes a copy of the receipt, otherwise there is no
    draft.  Without a receipt the component is not mounted and has no
    draft either. *)
Definition editingEffect (st : AppState num) : AppState num :=
  setEditingReceiptData
    (if isReceiptEditing st then receiptData st else None) st.

Definition draftStep (st : AppState num) (action : DraftAction num) : AppState num :=
  match action with
  | DoEdit edit => handleReceiptEdit edit st
  | DoAddItem => handleAddItem st
  | DoRemoveItem index => handleRemoveItem index st
  end.

Definition runDraftActions (actions : list (DraftAction num)) (st : AppState num)
  : AppState num :=
  fold_left draftStep actions st.

(** *** [resetState], [handleStartNewTab], [handleFileChange] *)

Definition resetState (st : AppState num) : AppState num :=
  {| receiptData := None;
     billSplit := [];
     chatMessages := [];
     isLoading := false;
     error := None;
     isReceiptEditing := false;
     editingReceiptData := editingReceiptData st |}.

(** [confirmed] is the answer of [window.confirm]. *)
Definition handleStartNewTab (confirmed : bool) (st : AppState num) : AppState num :=
  if confirmed then resetState st else st.

(** The promise returned by [parseReceipt]. *)
Definition parseReceipt (reply : ExtractionReply num) : ReceiptData num + string :=
  match reply with
  | ParsedReceipt parsedData => inl parsedData
  | UnparseableReceipt =>
      inr "The AI returned an invalid format. Please try another image."
  | FailedExtraction message => inr message
  end.

(** [handleFileChange] run to completion against one reply of the service;
    [fileSelected] tells whether [event.target.files?.[0]] is a file. *)
Definition handleFileChange (fileSelected : bool) (reply : ExtractionReply num)
    (st : AppState num) : AppState num :=
  if fileSelected then
    match parseReceipt reply with
    | inl parsedData =>
        {| receiptData := Some parsedData;
           billSplit := [];
           chatMessages := [];
           isLoading := false;
           error := None;
           isReceiptEditing := false;
           editingReceiptData := editingReceiptData st |}
    | inr message =>
        {| receiptData := None;
           billSplit := [];
           chatMessages := [];
           isLoading := false;
           error :=
             Some (if String.eqb message "" then "An unknown error occurred."
                   else message);
           isReceiptEditing := false;
           editingReceiptData := editingReceiptData st |}
    end
  else st.

(** *** The chat panel's effect on [receiptData] *)

(** The double quote character. *)
Definition dq : string := String (ascii_of_nat 34) EmptyString.

Definition receiptLoadedNotice : ChatMessage :=
  {| sender := system;
     text :=
       ("Receipt loaded! Tell me how to split the tab. For example: "
          ++ dq ++ "Alice had the burger" ++ dq ++ " or "
          ++ dq ++ "Bob and Carol shared the nachos" ++ dq ++ ".")%string |}.

Definition setChatMessages (messages : list ChatMessage) (st : AppState num)
  : AppState num :=
  {| receiptData := receiptData st;
     billSplit := billSplit st;
     chatMessages := messages;
     isLoading := isLoading st;
     error := error st;
     isReceiptEditing := isReceiptEditing st;
     editingReceiptData := editingReceiptData st |}.

(** [if (receiptData && chatMessages.length === 0) ... else if
    (!receiptData) ...] *)
Definition chatEffect (st : AppState num) : AppState num :=
  match receiptData st with
  | Some _ =>
      if List.length (chatMessages st) =? 0
      then setChatMessages [receiptLoadedNotice] st
      else st
  | None => setChatMessages [] st
  end.

(** The state of [App] at its first render. *)
Definition initialState : AppState num :=
  {| receiptData := None; billSplit := []; chatMessages := [];
     isLoading := false; error := None; isReceiptEditing := false;
     editingReceiptData := None |}.

(** *** Sessions *)

Definition sessionStep (st : AppState num) (action : SessionAction num)
  : AppState num :=
  match action with
  | DoSend input reply => handleSendMessage input reply st
  | DoAssign item names => handleAssignmentChange item names st
  | DoDraft action => draftStep st action
  | DoDeclineSave => handleSaveReceipt false st
  | DoDeclineNewTab => handleStartNewTab false st
  end.

Definition runSession (actions : list (SessionAction num)) (st : AppState num)
  : AppState num :=
  fold_left sessionStep actions st.

End Panel.

(** ** More sample data *)

Module SampleSession.

Import Sample.

(** Alice holding the whole Nachos. *)
Definition aliceNachos : PersonSplit Qc :=
  mkPersonSplit "Alice" [mkAssignedItem "Nachos" (exact 15 1)]
    0%Qc 0%Qc 0%Qc 0%Qc.

(** The receipt panel with the assignee editor closed. *)
Definition panelF (input : string) : PanelState binary64 :=
  mkPanelState
    (mkAppState (Some nachosReceiptF) [aliceBurgerF] [] false None false None)
    None input.

(** A few moves on a draft. *)
Definition someDraftActions : list (DraftAction binary64) :=
  [DoAddItem; DoEdit (Edit_tax (b64 3 0)); DoEdit (Edit_item_name 0 "Fries");
   DoRemoveItem 0].

Definition someDraftActionsQ : list (DraftAction Qc) :=
  [DoAddItem; DoEdit (Edit_tax (exact 3 1)); DoEdit (Edit_item_name 0 "Fries");
   DoRemoveItem 0].

End SampleSession.

(** * Properties *)

Section EngineFacts.

Context {num : Type} {N : JsNumber num}.

Implicit Types (data : option (ReceiptData num)) (split : BillSplit num).
Implicit Types (person : PersonSplit num) (item : ReceiptItem num).
Implicit Types (names : list string) (st : AppState num).

(** *** [recalculateBillSplit] touches the money fields only *)

Lemma recalculateBillSplit_items data split :
  map p_items (recalculateBillSplit data split) = map p_items split.
Proof.
  unfold recalculateBillSplit.
  destruct data as [d|]; [destruct (isZero (subtotal d))|]; try reflexivity.
  rewrite map_map. apply map_ext. intros person. reflexivity.
Qed.

Lemma recalculateBillSplit_names data split :
  map person_name (recalculateBillSplit data split) = map person_name split.
Proof.
  unfold recalculateBillSplit.
  destruct data as [d|]; [destruct (isZero (subtotal d))|]; try reflexivity.
  rewrite map_map. apply map_ext. intros person. reflexivity.
Qed.

Lemma recalculateBillSplit_idempotent data split :
  recalculateBillSplit data (recalculateBillSplit data split)
  = recalculateBillSplit data split.
Proof.
  unfold recalculateBillSplit.
  destruct data as [d|]; [|reflexivity].
  destruct (isZero (subtotal d)) eqn:Hz; rewrite ?Hz; [reflexivity|].
  rewrite map_map. apply map_ext. intros person. reflexivity.
Qed.

(** The guard [data.subtotal === 0], in any number model. *)
Lemma recalculateBillSplit_isZero (receipt : ReceiptData num) split :
  isZero (subtotal receipt) = true ->
  recalculateBillSplit (Some receipt) split = split.
Proof. intros Hz. unfold recalculateBillSplit. rewrite Hz. reflexivity. Qed.

(** A property of the item lists alone survives the recalculation. *)
Lemma recalculateBillSplit_Forall_items (P : list (AssignedItem num) -> Prop)
    data split :
  Forall (fun person => P (p_items person)) split ->
  Forall (fun person => P (p_items person)) (recalculateBillSplit data split).
Proof.
  intros HP.
  unfold recalculateBillSplit.
  destruct data as [d|]; [destruct (isZero (subtotal d))|]; try assumption.
  induction HP as [|person rest Hp _ IH]; simpl; constructor; assumption.
Qed.

(** *** The clearing step and the clean-up filter *)

Lemma filter_id_forallb {A : Type} (f : A -> bool) (l : list A) :
  forallb f l = true -> filter f l = l.
Proof.
  induction l as [|x l IH]; simpl; [reflexivity|].
  intros H. apply andb_prop in H as [Hx Hl].
  rewrite Hx, IH by assumption. reflexivity.
Qed.

Lemma forallb_filter_self {A : Type} (f : A -> bool) (l : list A) :
  forallb f (filter f l) = true.
Proof.
  induction l as [|x l IH]; simpl; [reflexivity|].
  destruct (f x) eqn:Hx; simpl; rewrite ?Hx; assumption.
Qed.

Lemma removeItem_clearOf name person : clearOf name (removeItem name person).
Proof. apply forallb_filter_self. Qed.

Lemma removeItem_fixed name person :
  clearOf name person -> removeItem name person = person.
Proof.
  intros H. destruct person as [pn its s t tp tt].
  unfold removeItem, clearOf in *; simpl in *.
  fold (@keeps num name). rewrite filter_id_forallb by assumption. reflexivity.
Qed.

Lemma map_removeItem_fixed name split :
  Forall (clearOf name) split -> map (removeItem name) split = split.
Proof.
  induction 1 as [|person rest Hp _ IH]; simpl; [reflexivity|].
  rewrite removeItem_fixed, IH by assumption. reflexivity.
Qed.

Lemma hasItems_length person :
  hasItems person <-> (0 <? List.length (p_items person)) = true.
Proof.
  unfold hasItems. destruct (p_items person); simpl; split; intros H;
    try reflexivity; try discriminate; congruence.
Qed.

Lemma filter_hasItems split :
  Forall hasItems (filter (fun p => 0 <? List.length (p_items p)) split).
Proof.
  apply Forall_forall. intros person Hin.
  apply filter_In in Hin as [_ H]. apply hasItems_length. exact H.
Qed.

Lemma filter_hasItems_fixed split :
  Forall hasItems split ->
  filter (fun p => 0 <? List.length (p_items p)) split = split.
Proof.
  intros H. apply filter_id_forallb. apply forallb_forall.
  intros person Hin. apply hasItems_length.
  rewrite Forall_forall in H. apply H. exact Hin.
Qed.

Lemma filter_clearOf name (f : PersonSplit num -> bool) split :
  Forall (clearOf name) split -> Forall (clearOf name) (filter f split).
Proof.
  rewrite !Forall_forall. intros H person Hin.
  apply filter_In in Hin as [Hin _]. apply H. exact Hin.
Qed.

Lemma map_removeItem_clearOf name split :
  Forall (clearOf name) (map (removeItem name) split).
Proof.
  apply Forall_forall. intros person Hin.
  apply in_map_iff in Hin as [p0 [<- _]]. apply removeItem_clearOf.
Qed.

(** The unassignment path of [assignItem], spelled out. *)
Lemma assignItem_nil data split item :
  assignItem data split item []
  = recalculateBillSplit data
      (filter (fun p => 0 <? List.length (p_items p))
         (map (removeItem (item_name item)) split)).
Proof. reflexivity. Qed.

(** On a split that is already clear of the item and has no empty
    person, unassignment is one recalculation. *)
Lemma assignItem_nil_settled data split item :
  Forall (clearOf (item_name item)) split ->
  Forall hasItems split ->
  assignItem data split item [] = recalculateBillSplit data split.
Proof.
  intros Hc Hn. rewrite assignItem_nil.
  rewrite map_removeItem_fixed by assumption.
  rewrite filter_hasItems_fixed by assumption. reflexivity.
Qed.

(** *** Unassignment, orphans and frame *)

Lemma assignItem_hasItems data split item names :
  Forall hasItems (assignItem data split item names).
Proof.
  unfold assignItem.
  apply (recalculateBillSplit_Forall_items (fun its => its <> [])).
  apply filter_hasItems.
Qed.

Lemma assignItem_nil_clearOf data split item :
  Forall (clearOf (item_name item)) (assignItem data split item []).
Proof.
  rewrite assignItem_nil.
  apply (recalculateBillSplit_Forall_items
           (fun its => forallb (keeps (item_name item)) its = true)).
  apply filter_clearOf, map_removeItem_clearOf.
Qed.

(** C7. Unassigning an item twice gives the same split as unassigning it
    once: [assignItem] with the empty name list is idempotent, for every
    receipt, split and item. *)
Theorem assignItem_unassign_idempotent data split item :
  assignItem data (assignItem data split item []) item []
  = assignItem data split item [].
Proof.
  rewrite assignItem_nil_settled.
  - rewrite assignItem_nil. apply recalculateBillSplit_idempotent.
  - apply assignItem_nil_clearOf.
  - apply assignItem_hasItems.
Qed.

(** C10. [recalculateBillSplit] keeps the number and the order of the
    people, and every person's name and assigned items (names and price
    portions); it can only change the four money fields.  This holds for
    every receipt, in particular for one with a nonzero subtotal. *)
Theorem recalculateBillSplit_frame data split :
  List.length (recalculateBillSplit data split) = List.length split
  /\ map person_name (recalculateBillSplit data split) = map person_name split
  /\ map p_items (recalculateBillSplit data split) = map p_items split.
Proof.
  split; [|split].
  - rewrite <- (length_map person_name), recalculateBillSplit_names.
    apply length_map.
  - apply recalculateBillSplit_names.
  - apply recalculateBillSplit_items.
Qed.

(** *** Receipt commit *)

(** C8. With a draft open, a confirmed save makes the draft the receipt,
    empties the bill split and leaves a conversation log of exactly one
    system message, whatever the split and the log were before; a declined
    confirmation changes nothing in the state. *)
Theorem handleSaveReceipt_commit st (draft : ReceiptData num) :
  editingReceiptData st = Some draft ->
  (receiptData (handleSaveReceipt true st) = Some draft
   /\ billSplit (handleSaveReceipt true st) = []
   /\ (exists notice, chatMessages (handleSaveReceipt true st) = [notice]
                      /\ sender notice = system))
  /\ handleSaveReceipt false st = st.
Proof.
  intros Hd. unfold handleSaveReceipt. rewrite Hd. simpl.
  repeat split. exists receiptUpdatedNotice. split; reflexivity.
Qed.

(** *** Who holds what after [pushItem] *)

Lemma itemsHeldBy_pushItem_same name (entry : AssignedItem num) split :
  itemsHeldBy name (pushItem name entry split) = itemsHeldBy name split ++ [entry].
Proof.
  unfold itemsHeldBy.
  induction split as [|person rest IH]; simpl.
  - rewrite String.eqb_refl. reflexivity.
  - destruct (String.eqb (person_name person) name) eqn:E; simpl; rewrite E.
    + reflexivity.
    + exact IH.
Qed.

Lemma itemsHeldBy_pushItem_other name other (entry : AssignedItem num) split :
  other <> name ->
  itemsHeldBy name (pushItem other entry split) = itemsHeldBy name split.
Proof.
  intros Hneq. apply String.eqb_neq in Hneq.
  unfold itemsHeldBy.
  induction split as [|person rest IH]; simpl.
  - rewrite Hneq. reflexivity.
  - destruct (String.eqb (person_name person) other) eqn:E; simpl.
    + apply String.eqb_eq in E. rewrite E, Hneq. reflexivity.
    + destruct (String.eqb (person_name person) name); [reflexivity | exact IH].
Qed.

Lemma itemsHeldBy_forEach name (entry : AssignedItem num) names split :
  itemsHeldBy name
    (fold_left (fun acc n => pushItem n entry acc) names split)
  = itemsHeldBy name split ++ repeat entry (count_occ string_dec names name).
Proof.
  revert split.
  induction names as [|n names IH]; intros split; simpl.
  - rewrite app_nil_r. reflexivity.
  - rewrite IH. destruct (string_dec n name) as [->|Hneq].
    + rewrite itemsHeldBy_pushItem_same, <- app_assoc. reflexivity.
    + rewrite itemsHeldBy_pushItem_other by assumption. reflexivity.
Qed.

Lemma itemsHeldBy_removeItem item_nm name split :
  itemsHeldBy name (map (removeItem item_nm) split)
  = filter (keeps item_nm) (itemsHeldBy name split).
Proof.
  unfold itemsHeldBy.
  induction split as [|person rest IH]; simpl; [reflexivity|].
  destruct (String.eqb (person_name person) name); [reflexivity | exact IH].
Qed.

Lemma itemsHeldBy_cleanup name split :
  itemsHeldBy name split <> [] ->
  itemsHeldBy name (filter (fun p => 0 <? List.length (p_items p)) split)
  = itemsHeldBy name split.
Proof.
  unfold itemsHeldBy.
  induction split as [|person rest IH]; simpl; [reflexivity|].
  destruct (String.eqb (person_name person) name) eqn:E.
  - intros Hne. destruct (p_items person) eqn:Hits; [congruence|].
    simpl. rewrite E. exact Hits.
  - intros Hne. destruct (0 <? List.length (p_items person)); simpl;
      rewrite ?E; apply IH; exact Hne.
Qed.

Lemma itemsHeldBy_recalculate data name split :
  itemsHeldBy name (recalculateBillSplit data split) = itemsHeldBy name split.
Proof.
  unfold recalculateBillSplit.
  destruct data as [d|]; [destruct (isZero (subtotal d))|]; try reflexivity.
  unfold itemsHeldBy.
  induction split as [|person rest IH]; simpl; [reflexivity|].
  destruct (String.eqb (person_name person) name); [reflexivity | exact IH].
Qed.

Lemma count_occ_In_pos names name :
  In name names -> 0 < count_occ string_dec names name.
Proof. intros H. apply (count_occ_In string_dec) in H. exact H. Qed.

(** What a listed name holds after [assignItem]: what it held before for
    the other items, then one new entry for each time it is listed. *)
Lemma itemsHeldBy_assignItem data split item names name :
  In name names ->
  itemsHeldBy name (assignItem data split item names)
  = filter (keeps (item_name item)) (itemsHeldBy name split)
    ++ repeat {| a_item_name := item_name item;
                 a_price := div (price item) (ofNat (List.length names)) |}
         (count_occ string_dec names name).
Proof.
  intros Hin. unfold assignItem.
  assert (Hlen : (0 <? List.length names) = true).
  { destruct names; [contradiction | reflexivity]. }
  rewrite Hlen, itemsHeldBy_recalculate.
  rewrite itemsHeldBy_cleanup; rewrite itemsHeldBy_forEach, itemsHeldBy_removeItem.
  - reflexivity.
  - apply count_occ_In_pos in Hin.
    destruct (count_occ string_dec names name); [lia|].
    simpl. intros Habs. apply app_eq_nil in Habs as [_ Habs]. discriminate.
Qed.

Lemma filter_isEntryOf_keeps name (l : list (AssignedItem num)) :
  filter (isEntryOf name) (filter (keeps name) l) = [].
Proof.
  induction l as [|x l IH]; simpl; [reflexivity|].
  unfold keeps at 1. destruct (String.eqb (a_item_name x) name) eqn:E; simpl.
  - exact IH.
  - unfold isEntryOf at 1. rewrite E. exact IH.
Qed.

Lemma filter_repeat_true {A : Type} (f : A -> bool) (x : A) (k : nat) :
  f x = true -> filter f (repeat x k) = repeat x k.
Proof.
  intros Hx. induction k as [|k IH]; simpl; [reflexivity|].
  rewrite Hx, IH. reflexivity.
Qed.

(** C4 (amended). Duplicate names are not collapsed: a name listed [k]
    times holds exactly [k] entries for the item after [assignItem] (under
    the first person of that name), each for the portion [item.price /
    names.length], where the length counts the duplicates. *)
Theorem assignItem_one_entry_per_occurrence data split item names name :
  In name names ->
  filter (isEntryOf (item_name item))
    (itemsHeldBy name (assignItem data split item names))
  = repeat {| a_item_name := item_name item;
              a_price := div (price item) (ofNat (List.length names)) |}
      (count_occ string_dec names name).
Proof.
  intros Hin.
  rewrite itemsHeldBy_assignItem by assumption.
  rewrite filter_app, filter_isEntryOf_keeps. simpl.
  apply filter_repeat_true. unfold isEntryOf. simpl. apply String.eqb_refl.
Qed.

(** *** Every entry of the item after [assignItem] *)

Lemma allEntriesOf_pushItem_length item_nm name (entry : AssignedItem num) split :
  isEntryOf item_nm entry = true ->
  List.length (allEntriesOf item_nm (pushItem name entry split))
  = S (List.length (allEntriesOf item_nm split)).
Proof.
  intros He. unfold allEntriesOf.
  induction split as [|person rest IH]; simpl.
  - unfold entriesOf. simpl. rewrite He. reflexivity.
  - destruct (String.eqb (person_name person) name); simpl.
    + unfold entriesOf at 1 3. simpl.
      rewrite filter_app. simpl. rewrite He.
      rewrite !length_app. simpl. lia.
    + rewrite !length_app, IH. lia.
Qed.

Lemma allEntriesOf_pushItem_Forall (P : AssignedItem num -> Prop)
    item_nm name entry split :
  P entry ->
  Forall P (allEntriesOf item_nm split) ->
  Forall P (allEntriesOf item_nm (pushItem name entry split)).
Proof.
  intros He. unfold allEntriesOf.
  induction split as [|person rest IH]; simpl; intros H.
  - unfold entriesOf. simpl. rewrite app_nil_r.
    destruct (isEntryOf item_nm entry); repeat constructor. exact He.
  - apply Forall_app in H as [Hp Hrest].
    destruct (String.eqb (person_name person) name); simpl.
    + apply Forall_app. split; [|exact Hrest].
      unfold entriesOf in *. simpl. rewrite filter_app.
      apply Forall_app. split; [exact Hp|].
      simpl. destruct (isEntryOf item_nm entry); repeat constructor. exact He.
    + apply Forall_app. split; [exact Hp | apply IH; exact Hrest].
Qed.

Lemma allEntriesOf_forEach_Forall (P : AssignedItem num -> Prop)
    item_nm entry names split :
  P entry ->
  Forall P (allEntriesOf item_nm split) ->
  Forall P
    (allEntriesOf item_nm
       (fold_left (fun acc n => pushItem n entry acc) names split)).
Proof.
  intros He. revert split.
  induction names as [|n names IH]; intros split Hall; simpl.
  - exact Hall.
  - apply IH, allEntriesOf_pushItem_Forall; assumption.
Qed.

Lemma allEntriesOf_forEach_length item_nm (entry : AssignedItem num) names split :
  isEntryOf item_nm entry = true ->
  List.length
    (allEntriesOf item_nm
       (fold_left (fun acc n => pushItem n entry acc) names split))
  = List.length names + List.length (allEntriesOf item_nm split).
Proof.
  intros He. revert split.
  induction names as [|n names IH]; intros split; simpl.
  - reflexivity.
  - rewrite IH, allEntriesOf_pushItem_length by exact He. lia.
Qed.

Lemma allEntriesOf_forEach item_nm (entry : AssignedItem num) names split :
  isEntryOf item_nm entry = true ->
  allEntriesOf item_nm split = [] ->
  allEntriesOf item_nm
    (fold_left (fun acc n => pushItem n entry acc) names split)
  = repeat entry (List.length names).
Proof.
  intros He Hnil.
  pose proof (allEntriesOf_forEach_length item_nm entry names split He) as Hl.
  rewrite Hnil in Hl. simpl in Hl. rewrite Nat.add_0_r in Hl.
  rewrite <- Hl. apply Forall_eq_repeat.
  apply allEntriesOf_forEach_Forall; [reflexivity|].
  rewrite Hnil. constructor.
Qed.

Lemma allEntriesOf_removeItem item_nm split :
  allEntriesOf item_nm (map (removeItem item_nm) split) = [].
Proof.
  unfold allEntriesOf.
  induction split as [|person rest IH]; simpl; [reflexivity|].
  rewrite IH, app_nil_r. unfold entriesOf. simpl.
  apply filter_isEntryOf_keeps.
Qed.

Lemma allEntriesOf_cleanup item_nm split :
  allEntriesOf item_nm (filter (fun p => 0 <? List.length (p_items p)) split)
  = allEntriesOf item_nm split.
Proof.
  unfold allEntriesOf.
  induction split as [|person rest IH]; simpl; [reflexivity|].
  destruct (p_items person) eqn:Hits; simpl.
  - unfold entriesOf at 2. rewrite Hits. simpl. exact IH.
  - rewrite IH. reflexivity.
Qed.

Lemma allEntriesOf_recalculate data item_nm split :
  allEntriesOf item_nm (recalculateBillSplit data split)
  = allEntriesOf item_nm split.
Proof.
  unfold recalculateBillSplit.
  destruct data as [d|]; [destruct (isZero (subtotal d))|]; try reflexivity.
  unfold allEntriesOf.
  induction split as [|person rest IH]; simpl; [reflexivity|].
  rewrite IH. reflexivity.
Qed.

(** After [assignItem] the entries recorded for the item, over all
    people, are exactly one entry of [item.price / names.length] per
    listed name (none when the list is empty). *)
Lemma allEntriesOf_assignItem data split item names :
  allEntriesOf (item_name item) (assignItem data split item names)
  = repeat {| a_item_name := item_name item;
              a_price := div (price item) (ofNat (List.length names)) |}
      (List.length names).
Proof.
  unfold assignItem.
  rewrite allEntriesOf_recalculate, allEntriesOf_cleanup.
  destruct names as [|n names].
  - simpl. apply allEntriesOf_removeItem.
  - change (0 <? List.length (n :: names)) with true. cbv iota.
    apply allEntriesOf_forEach.
    + unfold isEntryOf. simpl. apply String.eqb_refl.
    + apply allEntriesOf_removeItem.
Qed.

(** *** The chat path *)

(** C1 (amended). When the call of the service returns a parseable
    proposal, the split accepted into the state is the proposal itself,
    money fields included: [handleSendMessage] runs no recalculation. *)
Theorem handleSendMessage_accepts_proposal_verbatim
    (input : string) (proposal : BillSplit num) st (receipt : ReceiptData num) :
  receiptData st = Some receipt ->
  trimIsEmpty input = false ->
  isLoading st = false ->
  billSplit (handleSendMessage input (Parsed proposal) st) = proposal.
Proof.
  intros Hr Hi Hl. unfold handleSendMessage.
  rewrite Hr, Hi, Hl. reflexivity.
Qed.

(** A reply that is not a proposal leaves the split as it was and logs
    the error. *)
Lemma handleSendMessage_failure_keeps_split (input : string)
    (reply : ServiceReply num) st :
  (forall proposal, reply <> Parsed proposal) ->
  billSplit (handleSendMessage input reply st) = billSplit st.
Proof.
  intros Hnot. unfold handleSendMessage.
  destruct (receiptData st); [|reflexivity].
  destruct (trimIsEmpty input || isLoading st); [reflexivity|].
  destruct reply as [proposal| |message]; simpl; try reflexivity.
  exfalso. apply (Hnot proposal). reflexivity.
Qed.

(** C3 (amended). After every manual [assignItem], with any list of
    names, the empty one included, no person of the resulting split has an
    empty assigned-items sequence.  The merge of a proposal of the service
    adds no such clean-up: the split it leaves has no empty person provided
    the proposal, and the split before, have none. *)
Theorem reconciler_no_orphans data split item names
    (input : string) (proposal : BillSplit num) st :
  Forall hasItems (assignItem data split item names)
  /\ (Forall hasItems (billSplit st) ->
      Forall hasItems proposal ->
      Forall hasItems (billSplit (handleSendMessage input (Parsed proposal) st))).
Proof.
  split; [apply assignItem_hasItems|].
  intros Hst Hp. unfold handleSendMessage.
  destruct (receiptData st); [|exact Hst].
  destruct (trimIsEmpty input || isLoading st); [exact Hst | exact Hp].
Qed.

End EngineFacts.

(** ** The edit transaction *)

Section EditFacts.

Context {num : Type} {N : JsNumber num}.

Lemma updateAt_in_range {A : Type} (f : A -> A) (arr : list A) (index : nat) :
  index < List.length arr -> exists arr', updateAt index f arr = Some arr'.
Proof.
  revert index. induction arr as [|x arr IH]; intros index Hlt; simpl in *.
  - lia.
  - destruct index as [|i].
    + eexists. reflexivity.
    + destruct (IH i) as [arr' Harr']; [lia|].
      cbn. rewrite Harr'. eexists. reflexivity.
Qed.

Lemma updateAt_out_of_range {A : Type} (f : A -> A) (arr : list A) (index : nat) :
  List.length arr <= index -> updateAt index f arr = None.
Proof.
  revert index. induction arr as [|x arr IH]; intros index Hle; simpl in *.
  - destruct index; reflexivity.
  - destruct index as [|i]; [lia|]. cbn. rewrite IH by lia. reflexivity.
Qed.

Lemma writeField_in_range (edit : ReceiptEdit num) (draft : ReceiptData num) :
  editInRange edit draft -> exists newData, writeField edit draft = Some newData.
Proof.
  destruct edit; simpl; intros Hr; try (eexists; reflexivity);
    unfold editItem;
    match goal with
    | |- context [updateAt ?i ?f ?l] =>
        destruct (updateAt_in_range f l i Hr) as [arr' ->]
    end; eexists; reflexivity.
Qed.

(** A mutation that goes through stores the draft with its total
    recomputed by [autoUpdateTotal]. *)
Lemma handleReceiptEdit_applied (edit : ReceiptEdit num) (st : AppState num)
    (draft newData : ReceiptData num) :
  editingReceiptData st = Some draft ->
  writeField edit draft = Some newData ->
  editingReceiptData (handleReceiptEdit edit st) = Some (autoUpdateTotal newData).
Proof.
  intros Hd Hw. unfold handleReceiptEdit. rewrite Hd, Hw. reflexivity.
Qed.

(** The edit touches the draft only. *)
Lemma handleReceiptEdit_frame (edit : ReceiptEdit num) (st : AppState num) :
  receiptData (handleReceiptEdit edit st) = receiptData st
  /\ billSplit (handleReceiptEdit edit st) = billSplit st
  /\ chatMessages (handleReceiptEdit edit st) = chatMessages st.
Proof.
  unfold handleReceiptEdit.
  destruct (editingReceiptData st) as [draft|]; [|repeat split].
  destruct (writeField edit draft); repeat split.
Qed.

End EditFacts.

(** ** Exact arithmetic *)

Section ExactFacts.

Local Open Scope Qc_scope.

Implicit Types (receipt : ReceiptData Qc) (split : BillSplit Qc).
Implicit Types (person : PersonSplit Qc) (item : ReceiptItem Qc).

Lemma isZero_exact (x : Qc) : isZero x = true <-> x = 0.
Proof.
  simpl. rewrite Qeq_bool_iff. split.
  - intros H. apply Qc_is_canon. exact H.
  - intros ->. reflexivity.
Qed.

Lemma ofNat_S (n : nat) : ofNat (S n) = ofNat n + 1.
Proof.
  change (Q2Qc (inject_Z (Z.of_nat (S n)))
          = Q2Qc (inject_Z (Z.of_nat n)) + 1).
  apply Qc_is_canon. unfold Qcplus, Q2Qc, this.
  rewrite !Qred_correct.
  rewrite Nat2Z.inj_succ. unfold Z.succ. rewrite inject_Z_plus.
  reflexivity.
Qed.

Lemma ofNat_nonzero (n : nat) : n <> O -> ofNat n <> 0.
Proof.
  intros Hn H. apply (f_equal this) in H.
  change (Qred (inject_Z (Z.of_nat n)) = Qred 0) in H.
  apply Qred_eq_iff in H. unfold Qeq in H. simpl in H. lia.
Qed.

Lemma sumOf_repeat (x : Qc) (n : nat) : sumOf (repeat x n) = ofNat n * x.
Proof.
  induction n as [|n IH].
  - simpl. apply Qc_is_canon. reflexivity.
  - rewrite ofNat_S.
    change (sumOf (repeat x (S n))) with (x + sumOf (repeat x n)).
    rewrite IH. ring.
Qed.

Lemma reduce_sumOf (l : list (AssignedItem Qc)) (acc : Qc) :
  fold_left (fun a entry => add a (a_price entry)) l acc
  = acc + sumOf (map a_price l).
Proof.
  revert acc. induction l as [|x l IH]; intros acc; simpl.
  - change (acc = acc + 0). ring.
  - rewrite IH.
    change (acc + a_price x + sumOf (map a_price l)
            = acc + (a_price x + sumOf (map a_price l))).
    ring.
Qed.

(** C2. For every item and every non-empty list of names, the entries
    recorded for the item after [assignItem] are one portion
    [item.price / names.length] per listed name and nothing else, and in
    exact arithmetic these portions sum to the item's price. *)
Theorem assignItem_conserves_price (data : option (ReceiptData Qc))
    split item (names : list string) :
  names <> [] ->
  allEntriesOf (item_name item) (assignItem data split item names)
  = repeat {| a_item_name := item_name item;
              a_price := price item / ofNat (List.length names) |}
      (List.length names)
  /\ portionTotal (item_name item) (assignItem data split item names)
     = price item.
Proof.
  intros Hne.
  pose proof (allEntriesOf_assignItem data split item names) as Hall.
  split; [exact Hall|].
  unfold portionTotal. rewrite Hall, map_repeat, sumOf_repeat.
  cbn [a_price].
  assert (Hn : ofNat (List.length names) <> 0).
  { apply ofNat_nonzero. destruct names; [congruence | discriminate]. }
  change (div (price item) (ofNat (List.length names)))
    with (price item / ofNat (List.length names)).
  field. exact Hn.
Qed.

(** C5. When the receipt's subtotal is 0, [recalculateBillSplit] returns
    its input split unchanged. *)
Theorem recalculateBillSplit_zero_subtotal receipt split :
  subtotal receipt = 0 ->
  recalculateBillSplit (Some receipt) split = split.
Proof.
  intros Hz. apply recalculateBillSplit_isZero, isZero_exact. exact Hz.
Qed.

(** C6. When the receipt's subtotal is not 0, [recalculateBillSplit] gives
    every person, at the same position, the sum of the assigned portions
    as subtotal, [receipt.tax * (subtotal / receipt.subtotal)] as tax, the
    same ratio of [receipt.tip] as tip and their sum as total; for a
    receipt with subtotal 100, tax 10 and tip 5 and a person whose portions
    sum to 25 these are 2.5, 1.25 and 28.75. *)
Theorem recalculateBillSplit_proportional receipt split (i : nat) person :
  subtotal receipt <> 0 ->
  nth_error split i = Some person ->
  let s := sumOf (map a_price (p_items person)) in
  nth_error (recalculateBillSplit (Some receipt) split) i
  = Some {| person_name := person_name person;
            p_items := p_items person;
            p_subtotal := s;
            p_tax := tax receipt * (s / subtotal receipt);
            p_tip := tip receipt * (s / subtotal receipt);
            p_total := s + tax receipt * (s / subtotal receipt)
                       + tip receipt * (s / subtotal receipt) |}
  /\ (subtotal receipt = exact 100 1 -> tax receipt = exact 10 1 ->
      tip receipt = exact 5 1 -> s = exact 25 1 ->
      nth_error (recalculateBillSplit (Some receipt) split) i
      = Some {| person_name := person_name person;
                p_items := p_items person;
                p_subtotal := exact 25 1;
                p_tax := exact 5 2;
                p_tip := exact 5 4;
                p_total := exact 115 4 |}).
Proof.
  intros Hnz Hnth s.
  assert (Hgen : nth_error (recalculateBillSplit (Some receipt) split) i
                 = Some {| person_name := person_name person;
                           p_items := p_items person;
                           p_subtotal := s;
                           p_tax := tax receipt * (s / subtotal receipt);
                           p_tip := tip receipt * (s / subtotal receipt);
                           p_total := s + tax receipt * (s / subtotal receipt)
                                      + tip receipt * (s / subtotal receipt) |}).
  { unfold recalculateBillSplit.
    destruct (isZero (subtotal receipt)) eqn:Hz.
    - apply isZero_exact in Hz. contradiction.
    - rewrite nth_error_map, Hnth. simpl. unfold recalculatePerson.
      rewrite reduce_sumOf. fold s.
      change (add zero s) with (0 + s). rewrite Qcplus_0_l. reflexivity. }
  split; [exact Hgen|].
  intros Hs Ht Hp H25. rewrite Hgen, Hs, Ht, Hp, H25.
  do 2 f_equal; apply Qc_is_canon; reflexivity.
Qed.

(** C9. With a draft open, after a field edit whose item exists, after
    adding an item and after removing an item, the draft's total is
    [draft.subtotal + draft.tax + draft.tip]; an edit of the field [total]
    itself is overwritten in the same way. *)
Theorem draft_total_is_derived (st : AppState Qc) (draft : ReceiptData Qc) :
  editingReceiptData st = Some draft ->
  (forall edit, editInRange edit draft ->
                draftTotalIsDerived (handleReceiptEdit edit st))
  /\ draftTotalIsDerived (handleAddItem st)
  /\ (forall index, draftTotalIsDerived (handleRemoveItem index st)).
Proof.
  intros Hd.
  assert (Hedit : forall edit, editInRange edit draft ->
                               draftTotalIsDerived (handleReceiptEdit edit st)).
  { intros edit Hr.
    destruct (writeField_in_range edit draft Hr) as [newData Hw].
    exists (autoUpdateTotal newData). split.
    - apply (handleReceiptEdit_applied edit st draft newData Hd Hw).
    - reflexivity. }
  split; [exact Hedit|]. split.
  - unfold handleAddItem. rewrite Hd. apply Hedit. exact I.
  - intros index. unfold handleRemoveItem. rewrite Hd. apply Hedit. exact I.
Qed.

End ExactFacts.

(** ** Concrete runs *)

Section Runs.

Import Sample.

(** The end-to-end scenario on binary64 numbers: Nachos at 15.00 shared by
    three people. *)
Example nachos_three_ways :
  assignItem (Some nachosReceiptF) [] nachosF ["Alice"; "Bob"; "Charlie"]
  = [nachosShare "Alice"; nachosShare "Bob"; nachosShare "Charlie"].
Proof. vm_compute. reflexivity. Qed.

(** The proportionality example on binary64 numbers: 2.5, 1.25, 28.75. *)
Example dinner_proportional_binary64 :
  recalculateBillSplit (Some dinnerReceiptF) [aliceBurgerF]
  = [ mkPersonSplit "Alice" [mkAssignedItem "Burger" (b64 25 0)]
        (b64 25 0) (b64 5 (-1)) (b64 5 (-2)) (b64 115 (-2)) ].
Proof. vm_compute. reflexivity. Qed.

(** On binary64 numbers the portions sum to the price up to rounding
    only: 1.00 shared six ways adds up to [1 - 2^-53]. *)
Example mint_six_ways_rounding :
  portionTotal "Mint"
    (assignItem (Some dinnerReceiptF) [] mintF ["A"; "B"; "C"; "D"; "E"; "F"])
  = b64 9007199254740991 (-53).
Proof. vm_compute. reflexivity. Qed.

(** C1, counterexample. The service proposes Alice with the 25.00 burger
    and money fields left at zero, on a receipt with subtotal 100, tax 10
    and tip 5: the split stored by [handleSendMessage] is not the
    recalculation of the proposal (whose tax would be 2.5). *)
Lemma handleSendMessage_stores_unrecalculated :
  billSplit (handleSendMessage "Alice had the burger" (Parsed [aliceBurgerF]) sessionF)
  <> recalculateBillSplit (receiptData sessionF) [aliceBurgerF].
Proof. vm_compute. intros H. discriminate H. Qed.

Lemma handleSendMessage_accepts_proposal_verbatim_witness :
  receiptData sessionF = Some dinnerReceiptF
  /\ trimIsEmpty "Alice had the burger" = false
  /\ isLoading sessionF = false
  /\ billSplit (handleSendMessage "Alice had the burger"
                  (Parsed [aliceBurgerF]) sessionF)
     = [aliceBurgerF].
Proof.
  split; [reflexivity|]. split; [reflexivity|]. split; [reflexivity|].
  apply (handleSendMessage_accepts_proposal_verbatim
           "Alice had the burger" [aliceBurgerF] sessionF dinnerReceiptF);
    reflexivity.
Defined.

Lemma assignItem_conserves_price_witness :
  ["Alice"; "Bob"; "Charlie"] <> []
  /\ (allEntriesOf (item_name nachos)
        (assignItem (Some nachosReceipt) [] nachos ["Alice"; "Bob"; "Charlie"])
      = repeat {| a_item_name := item_name nachos;
                  a_price := (price nachos / ofNat 3)%Qc |} 3
      /\ portionTotal (item_name nachos)
           (assignItem (Some nachosReceipt) [] nachos ["Alice"; "Bob"; "Charlie"])
         = price nachos).
Proof.
  split; [discriminate|].
  apply (assignItem_conserves_price (Some nachosReceipt) [] nachos
           ["Alice"; "Bob"; "Charlie"]).
  discriminate.
Defined.

(** C3, counterexample. The service proposes Bob holding nothing: the
    split stored by [handleSendMessage] contains a person with an empty
    assigned-items sequence. *)
Lemma handleSendMessage_keeps_empty_person :
  ~ Forall hasItems
      (billSplit (handleSendMessage "Bob had nothing" (Parsed [bobNothingF]) sessionF)).
Proof.
  vm_compute. intros H. inversion H as [|person rest Hp _]; subst.
  apply Hp. reflexivity.
Qed.

Lemma reconciler_no_orphans_witness :
  Forall hasItems (billSplit sessionF)
  /\ Forall hasItems [aliceBurgerF]
  /\ Forall hasItems (assignItem (Some nachosReceiptF) [] nachosF [])
  /\ Forall hasItems
       (billSplit (handleSendMessage "Alice had the burger"
                     (Parsed [aliceBurgerF]) sessionF)).
Proof.
  assert (Hst : Forall hasItems (billSplit sessionF)) by constructor.
  assert (Hp : Forall hasItems [aliceBurgerF]).
  { repeat constructor. discriminate. }
  destruct (reconciler_no_orphans (Some nachosReceiptF) [] nachosF []
              "Alice had the burger" [aliceBurgerF] sessionF) as [Ha Hm].
  split; [exact Hst|]. split; [exact Hp|]. split; [exact Ha|].
  exact (Hm Hst Hp).
Defined.

(** C4, counterexample. Nachos assigned to the list Alice, Alice: the
    resulting split has one person, Alice, holding two Nachos entries. *)
Lemma assignItem_duplicate_names_two_entries :
  map (fun person => (person_name person,
                      List.length (entriesOf "Nachos" person)))
    (assignItem (Some nachosReceiptF) [] nachosF ["Alice"; "Alice"])
  = [("Alice", 2)].
Proof. vm_compute. reflexivity. Qed.

Lemma assignItem_one_entry_per_occurrence_witness :
  In "Alice" ["Alice"; "Bob"; "Alice"]
  /\ filter (isEntryOf (item_name nachosF))
       (itemsHeldBy "Alice"
          (assignItem (Some nachosReceiptF) [] nachosF ["Alice"; "Bob"; "Alice"]))
     = repeat {| a_item_name := item_name nachosF;
                 a_price := div (price nachosF) (ofNat 3) |}
         (count_occ string_dec ["Alice"; "Bob"; "Alice"] "Alice").
Proof.
  split; [left; reflexivity|].
  apply (assignItem_one_entry_per_occurrence (Some nachosReceiptF) [] nachosF
           ["Alice"; "Bob"; "Alice"] "Alice").
  left. reflexivity.
Defined.

Lemma recalculateBillSplit_zero_subtotal_witness :
  subtotal freeReceipt = 0%Qc
  /\ recalculateBillSplit (Some freeReceipt) [aliceBurger] = [aliceBurger].
Proof.
  split; [reflexivity|].
  apply (recalculateBillSplit_zero_subtotal freeReceipt [aliceBurger]).
  reflexivity.
Defined.

Lemma dinnerReceipt_subtotal_nonzero : subtotal dinnerReceipt <> 0%Qc.
Proof. intros H. apply (f_equal this) in H. vm_compute in H. discriminate H. Defined.

Lemma recalculateBillSplit_proportional_witness :
  subtotal dinnerReceipt <> 0%Qc
  /\ nth_error [aliceBurger] 0 = Some aliceBurger
  /\ nth_error (recalculateBillSplit (Some dinnerReceipt) [aliceBurger]) 0
     = Some {| person_name := "Alice";
               p_items := [mkAssignedItem "Burger" (exact 25 1)];
               p_subtotal := exact 25 1;
               p_tax := exact 5 2;
               p_tip := exact 5 4;
               p_total := exact 115 4 |}.
Proof.
  split; [exact dinnerReceipt_subtotal_nonzero|]. split; [reflexivity|].
  apply (recalculateBillSplit_proportional dinnerReceipt [aliceBurger] 0 aliceBurger
           dinnerReceipt_subtotal_nonzero eq_refl);
    reflexivity.
Defined.

Lemma handleSaveReceipt_commit_witness :
  editingReceiptData (session dinnerReceipt (Some nachosReceipt)) = Some nachosReceipt
  /\ receiptData (handleSaveReceipt true (session dinnerReceipt (Some nachosReceipt)))
     = Some nachosReceipt
  /\ billSplit (handleSaveReceipt true (session dinnerReceipt (Some nachosReceipt)))
     = []
  /\ handleSaveReceipt false (session dinnerReceipt (Some nachosReceipt))
     = session dinnerReceipt (Some nachosReceipt).
Proof.
  split; [reflexivity|].
  destruct (handleSaveReceipt_commit (session dinnerReceipt (Some nachosReceipt))
              nachosReceipt eq_refl) as [[Hr [Hb _]] Hdecline].
  split; [exact Hr|]. split; [exact Hb | exact Hdecline].
Defined.

Lemma draft_total_is_derived_witness :
  editingReceiptData (session dinnerReceipt (Some nachosReceipt)) = Some nachosReceipt
  /\ editInRange (Edit_item_price 0 (exact 12 1)) nachosReceipt
  /\ draftTotalIsDerived
       (handleReceiptEdit (Edit_item_price 0 (exact 12 1))
          (session dinnerReceipt (Some nachosReceipt))).
Proof.
  split; [reflexivity|]. split; [simpl; lia|].
  apply (proj1 (draft_total_is_derived (session dinnerReceipt (Some nachosReceipt))
                  nachosReceipt eq_refl)).
  simpl. lia.
Defined.

End Runs.

(** ** Who is assigned to what: [assignedItemsMap] *)

Section AssigneeFacts.

Context {num : Type} {N : JsNumber num}.

Implicit Types (data : option (ReceiptData num)) (split : BillSplit num).
Implicit Types (person : PersonSplit num) (item : ReceiptItem num).
Implicit Types (names people : list string) (map : AssigneeMap).

Lemma mapGet_mapSet_same key value map :
  mapGet key (mapSet key value map) = Some value.
Proof.
  induction map as [|[k v] rest IH]; simpl.
  - rewrite String.eqb_refl. reflexivity.
  - destruct (String.eqb k key) eqn:E; simpl; rewrite E; [reflexivity | exact IH].
Qed.

Lemma mapGet_mapSet_other key other value map :
  other <> key -> mapGet other (mapSet key value map) = mapGet other map.
Proof.
  intros Hneq.
  induction map as [|[k v] rest IH]; simpl.
  - apply String.eqb_neq in Hneq. rewrite String.eqb_sym, Hneq. reflexivity.
  - destruct (String.eqb k key) eqn:E; simpl.
    + apply String.eqb_eq in E. subst k.
      apply String.eqb_neq in Hneq. rewrite String.eqb_sym, Hneq. reflexivity.
    + rewrite IH. reflexivity.
Qed.

Lemma getOrEmpty_recordHolder key name map (entry : AssignedItem num) :
  getOrEmpty key (recordHolder name map entry)
  = if isEntryOf key entry then pushUnique (getOrEmpty key map) name
    else getOrEmpty key map.
Proof.
  unfold recordHolder, getOrEmpty, isEntryOf.
  destruct (String.eqb (a_item_name entry) key) eqn:E.
  - apply String.eqb_eq in E. subst key. rewrite mapGet_mapSet_same. reflexivity.
  - apply String.eqb_neq in E.
    rewrite mapGet_mapSet_other by congruence. reflexivity.
Qed.

Lemma getOrEmpty_recordHolders key name (entries : list (AssignedItem num)) map :
  getOrEmpty key (fold_left (recordHolder name) entries map)
  = fold_left pushUnique
      (List.map (fun _ => name) (filter (isEntryOf key) entries))
      (getOrEmpty key map).
Proof.
  revert map. induction entries as [|entry entries IH]; intros map; simpl.
  - reflexivity.
  - rewrite IH, getOrEmpty_recordHolder.
    destruct (isEntryOf key entry); reflexivity.
Qed.

(** The array stored under an item name is the sequence of its holders
    with repetitions dropped. *)
Lemma assigneesOf_holderSeq key split :
  assigneesOf key split = fold_left pushUnique (holderSeq key split) [].
Proof.
  unfold assigneesOf, assignedItemsMap, holderSeq.
  assert (H : forall map,
             getOrEmpty key
               (fold_left
                  (fun map person =>
                     fold_left (recordHolder (person_name person)) (p_items person) map)
                  split map)
             = fold_left pushUnique
                 (flat_map
                    (fun person =>
                       List.map (fun _ => person_name person) (entriesOf key person))
                    split)
                 (getOrEmpty key map)).
  { induction split as [|person rest IH]; intros map; simpl.
    - reflexivity.
    - rewrite IH, fold_left_app, getOrEmpty_recordHolders. reflexivity. }
  apply (H []).
Qed.

Lemma existsb_eqb_In name people :
  existsb (String.eqb name) people = true <-> In name people.
Proof.
  rewrite existsb_exists. split.
  - intros [x [Hin Hx]]. apply String.eqb_eq in Hx. subst x. exact Hin.
  - intros Hin. exists name. split; [exact Hin | apply String.eqb_refl].
Qed.

Lemma In_pushUnique name people other :
  In other (pushUnique people name) <-> In other people \/ other = name.
Proof.
  unfold pushUnique.
  destruct (existsb (String.eqb name) people) eqn:E.
  - apply existsb_eqb_In in E. split; [tauto|].
    intros [H | ->]; assumption.
  - rewrite in_app_iff. simpl. split; intros [H | H]; auto.
    + destruct H as [H | []]. auto.
Qed.

Lemma NoDup_pushUnique name people :
  NoDup people -> NoDup (pushUnique people name).
Proof.
  intros Hnd. unfold pushUnique.
  destruct (existsb (String.eqb name) people) eqn:E; [exact Hnd|].
  assert (Hnot : ~ In name people).
  { intros Hin. apply existsb_eqb_In in Hin. congruence. }
  apply NoDup_rev in Hnd.
  rewrite <- (rev_involutive (people ++ [name])).
  apply NoDup_rev. rewrite rev_app_distr. simpl.
  constructor; [|exact Hnd].
  rewrite <- in_rev. exact Hnot.
Qed.

Lemma In_fold_pushUnique other (seq : list string) people :
  In other (fold_left pushUnique seq people) <-> In other people \/ In other seq.
Proof.
  revert people. induction seq as [|name seq IH]; intros people; simpl.
  - tauto.
  - rewrite IH, In_pushUnique. split; intros H; intuition auto.
Qed.

Lemma NoDup_fold_pushUnique (seq : list string) people :
  NoDup people -> NoDup (fold_left pushUnique seq people).
Proof.
  revert people. induction seq as [|name seq IH]; intros people Hnd; simpl.
  - exact Hnd.
  - apply IH, NoDup_pushUnique, Hnd.
Qed.

Lemma In_holderSeq key split name :
  In name (holderSeq key split)
  <-> exists person, In person split /\ person_name person = name
                     /\ entriesOf key person <> [].
Proof.
  unfold holderSeq. rewrite in_flat_map. split.
  - intros [person [Hin Hmap]]. exists person.
    apply in_map_iff in Hmap as [entry [Hname Hentry]].
    split; [exact Hin|]. split; [exact Hname|].
    intros Habs. rewrite Habs in Hentry. exact Hentry.
  - intros [person [Hin [Hname Hne]]]. exists person. split; [exact Hin|].
    destruct (entriesOf key person) as [|entry entries]; [congruence|].
    left. exact Hname.
Qed.

Lemma entriesOf_nonempty key person :
  entriesOf key person <> []
  <-> exists entry, In entry (p_items person) /\ a_item_name entry = key.
Proof.
  unfold entriesOf. split.
  - intros Hne.
    destruct (filter (isEntryOf key) (p_items person)) as [|entry l] eqn:E;
      [congruence|].
    assert (Hin : In entry (filter (isEntryOf key) (p_items person))).
    { rewrite E. left. reflexivity. }
    apply filter_In in Hin as [Hin Hk]. exists entry. split; [exact Hin|].
    apply String.eqb_eq. exact Hk.
  - intros [entry [Hin Hk]] Habs.
    assert (Hin' : In entry (filter (isEntryOf key) (p_items person))).
    { apply filter_In. split; [exact Hin|]. apply String.eqb_eq. exact Hk. }
    rewrite Habs in Hin'. exact Hin'.
Qed.

(** X1. The assignees shown for an item are exactly the names of the
    people of the split holding an entry for it, each name once. *)
Theorem assigneesOf_holders key split :
  (forall name,
      In name (assigneesOf key split)
      <-> exists person, In person split /\ person_name person = name
                         /\ exists entry, In entry (p_items person)
                                          /\ a_item_name entry = key)
  /\ NoDup (assigneesOf key split).
Proof.
  rewrite assigneesOf_holderSeq. split.
  - intros name. rewrite In_fold_pushUnique, In_holderSeq. split.
    + intros [[] | [person [Hin [Hname Hne]]]].
      exists person. rewrite <- entriesOf_nonempty. auto.
    + intros [person [Hin [Hname Hne]]]. right.
      exists person. rewrite entriesOf_nonempty. auto.
  - apply NoDup_fold_pushUnique. constructor.
Qed.

End AssigneeFacts.

(** ** What [assignItem] does to the assignments *)

Section AssignmentFacts.

Context {num : Type} {N : JsNumber num}.

Implicit Types (data : option (ReceiptData num)) (split : BillSplit num).
Implicit Types (person : PersonSplit num) (item : ReceiptItem num).
Implicit Types (names : list string).

Lemma entriesOf_removeItem_other key item_nm person :
  key <> item_nm ->
  entriesOf key (removeItem item_nm person) = entriesOf key person.
Proof.
  intros Hneq. unfold entriesOf. simpl.
  induction (p_items person) as [|entry entries IH]; simpl; [reflexivity|].
  destruct (String.eqb (a_item_name entry) item_nm) eqn:E; simpl.
  - apply String.eqb_eq in E.
    assert (Hk : isEntryOf key entry = false).
    { unfold isEntryOf. apply String.eqb_neq. congruence. }
    rewrite Hk. exact IH.
  - destruct (isEntryOf key entry); rewrite IH; reflexivity.
Qed.

Lemma entriesOf_removeItem_same item_nm person :
  entriesOf item_nm (removeItem item_nm person) = [].
Proof. unfold entriesOf. simpl. apply filter_isEntryOf_keeps. Qed.

(** Any listing of the split that reads, person by person, the name and
    the entries for one item, and skips the people without such entries. *)
Section PerItem.

Variable B : Type.
Variable h : string -> list (AssignedItem num) -> list B.
Hypothesis h_nil : forall name, h name [] = [].

Local Abbreviation listing key split :=
  (flat_map (fun person => h (person_name person) (entriesOf key person)) split).

Lemma listing_removeItem key item_nm split :
  key <> item_nm ->
  listing key (List.map (removeItem item_nm) split) = listing key split.
Proof.
  intros Hneq.
  induction split as [|person rest IH]; simpl; [reflexivity|].
  rewrite IH, entriesOf_removeItem_other by assumption. reflexivity.
Qed.

Lemma listing_pushItem key name (entry : AssignedItem num) split :
  isEntryOf key entry = false ->
  listing key (pushItem name entry split) = listing key split.
Proof.
  intros He.
  induction split as [|person rest IH]; simpl.
  - unfold entriesOf. simpl. rewrite He, h_nil. reflexivity.
  - destruct (String.eqb (person_name person) name); simpl.
    + unfold entriesOf. simpl. rewrite filter_app. simpl.
      rewrite He, app_nil_r. reflexivity.
    + rewrite IH. reflexivity.
Qed.

Lemma listing_forEach key (entry : AssignedItem num) names split :
  isEntryOf key entry = false ->
  listing key (fold_left (fun acc n => pushItem n entry acc) names split)
  = listing key split.
Proof.
  intros He. revert split.
  induction names as [|n names IH]; intros split; simpl; [reflexivity|].
  rewrite IH. apply listing_pushItem. exact He.
Qed.

Lemma listing_cleanup key split :
  listing key (filter (fun p => 0 <? List.length (p_items p)) split)
  = listing key split.
Proof.
  induction split as [|person rest IH]; simpl; [reflexivity|].
  destruct (p_items person) eqn:Hits; simpl.
  - unfold entriesOf at 2. rewrite Hits. simpl. rewrite h_nil. exact IH.
  - rewrite IH. reflexivity.
Qed.

Lemma listing_recalculate data key split :
  listing key (recalculateBillSplit data split) = listing key split.
Proof.
  unfold recalculateBillSplit.
  destruct data as [d|]; [destruct (isZero (subtotal d))|]; try reflexivity.
  induction split as [|person rest IH]; simpl; [reflexivity|].
  rewrite IH. reflexivity.
Qed.

Lemma listing_assignItem_other data split item names key :
  key <> item_name item ->
  listing key (assignItem data split item names) = listing key split.
Proof.
  intros Hneq. unfold assignItem.
  rewrite listing_recalculate, listing_cleanup.
  assert (He : isEntryOf key
                 {| a_item_name := item_name item;
                    a_price := div (price item) (ofNat (List.length names)) |}
               = false).
  { unfold isEntryOf. simpl. apply String.eqb_neq. congruence. }
  destruct (0 <? List.length names).
  - rewrite listing_forEach by exact He. apply listing_removeItem. exact Hneq.
  - apply listing_removeItem. exact Hneq.
Qed.

End PerItem.

Lemma holderSeq_pushItem key name (entry : AssignedItem num) split other :
  isEntryOf key entry = true ->
  In other (holderSeq key (pushItem name entry split))
  <-> In other (holderSeq key split) \/ other = name.
Proof.
  intros He. unfold holderSeq.
  induction split as [|person rest IH]; simpl.
  - unfold entriesOf. simpl. rewrite He. simpl. intuition auto.
  - destruct (String.eqb (person_name person) name) eqn:E; simpl.
    + apply String.eqb_eq in E.
      rewrite !in_app_iff. unfold entriesOf. simpl.
      rewrite filter_app. simpl. rewrite He.
      rewrite map_app, in_app_iff. simpl. rewrite E. intuition auto.
    + rewrite !in_app_iff, IH. intuition auto.
Qed.

Lemma holderSeq_forEach key (entry : AssignedItem num) names split other :
  isEntryOf key entry = true ->
  In other (holderSeq key (fold_left (fun acc n => pushItem n entry acc) names split))
  <-> In other (holderSeq key split) \/ In other names.
Proof.
  intros He. revert split.
  induction names as [|n names IH]; intros split; simpl.
  - tauto.
  - rewrite IH, holderSeq_pushItem by exact He. intuition auto.
Qed.

Lemma holderSeq_removeItem_same item_nm split :
  holderSeq item_nm (List.map (removeItem item_nm) split) = [].
Proof.
  unfold holderSeq.
  induction split as [|person rest IH]; simpl; [reflexivity|].
  rewrite IH, entriesOf_removeItem_same. reflexivity.
Qed.

Lemma holderSeq_cleanup key split :
  holderSeq key (filter (fun p => 0 <? List.length (p_items p)) split)
  = holderSeq key split.
Proof.
  apply (listing_cleanup string (fun name l => List.map (fun _ => name) l)).
  reflexivity.
Qed.

Lemma holderSeq_recalculate data key split :
  holderSeq key (recalculateBillSplit data split) = holderSeq key split.
Proof.
  apply (listing_recalculate string (fun name l => List.map (fun _ => name) l)).
Qed.

Lemma holderSeq_assignItem data split item names other :
  In other (holderSeq (item_name item) (assignItem data split item names))
  <-> In other names.
Proof.
  unfold assignItem.
  rewrite holderSeq_recalculate, holderSeq_cleanup.
  destruct names as [|n names].
  - simpl. rewrite holderSeq_removeItem_same. tauto.
  - change (0 <? List.length (n :: names)) with true. cbv iota.
    rewrite holderSeq_forEach, holderSeq_removeItem_same.
    + simpl. tauto.
    + unfold isEntryOf. simpl. apply String.eqb_refl.
Qed.

(** X2. After [assignItem] the assignees shown for the item are exactly
    the listed names (nobody when the list is empty), whoever held the item
    before. *)
Theorem assigneesOf_assignItem data split item names name :
  In name (assigneesOf (item_name item) (assignItem data split item names))
  <-> In name names.
Proof.
  rewrite assigneesOf_holderSeq, In_fold_pushUnique, holderSeq_assignItem.
  simpl. tauto.
Qed.


End AssignmentFacts.

(** ** Undoing an assignment *)

Section UndoFacts.

Context {num : Type} {N : JsNumber num}.

Implicit Types (data : option (ReceiptData num)) (split : BillSplit num).
Implicit Types (person : PersonSplit num) (item : ReceiptItem num).

Local Abbreviation cleared item_nm split :=
  (filter (fun p => 0 <? List.length (p_items p))
     (List.map (removeItem item_nm) split)).

Lemma cleared_pushItem item_nm name (entry : AssignedItem num) split :
  isEntryOf item_nm entry = true ->
  cleared item_nm (pushItem name entry split) = cleared item_nm split.
Proof.
  intros He.
  assert (Hk : negb (String.eqb (a_item_name entry) item_nm) = false).
  { unfold isEntryOf in He. rewrite He. reflexivity. }
  induction split as [|person rest IH]; simpl.
  - rewrite Hk. reflexivity.
  - destruct (String.eqb (person_name person) name); simpl.
    + unfold removeItem at 1 3. simpl.
      rewrite filter_app. simpl. rewrite Hk, app_nil_r. reflexivity.
    + rewrite IH. reflexivity.
Qed.

Lemma cleared_forEach item_nm (entry : AssignedItem num) names split :
  isEntryOf item_nm entry = true ->
  cleared item_nm (fold_left (fun acc n => pushItem n entry acc) names split)
  = cleared item_nm split.
Proof.
  intros He. revert split.
  induction names as [|n names IH]; intros split; simpl; [reflexivity|].
  rewrite IH. apply cleared_pushItem. exact He.
Qed.

Lemma cleared_cleanup item_nm split :
  cleared item_nm (filter (fun p => 0 <? List.length (p_items p)) split)
  = cleared item_nm split.
Proof.
  induction split as [|person rest IH]; simpl; [reflexivity|].
  destruct (p_items person) eqn:Hits; simpl.
  - exact IH.
  - rewrite Hits, IH. reflexivity.
Qed.

Lemma cleared_removeItem item_nm split :
  cleared item_nm (List.map (removeItem item_nm) split) = cleared item_nm split.
Proof.
  rewrite (map_removeItem_fixed item_nm (List.map (removeItem item_nm) split)).
  - reflexivity.
  - apply map_removeItem_clearOf.
Qed.

(** The money fields present before a recalculation do not matter to
    it, even across the clearing of an item. *)
Lemma recalculate_cleared_recalculate data item_nm split :
  recalculateBillSplit data (cleared item_nm (recalculateBillSplit data split))
  = recalculateBillSplit data (cleared item_nm split).
Proof.
  unfold recalculateBillSplit.
  destruct data as [d|]; [|reflexivity].
  destruct (isZero (subtotal d)); [reflexivity|].
  induction split as [|person rest IH]; simpl; [reflexivity|].
  destruct (0 <? List.length
                   (filter (fun i => negb (String.eqb (a_item_name i) item_nm))
                      (p_items person))); simpl.
  - rewrite IH. reflexivity.
  - exact IH.
Qed.

(** X4. Unassigning an item right after assigning it, to whatever names,
    gives the split that unassigning it directly gives: the people created
    for the assignment are gone and everyone else is as after a plain
    unassignment. *)
Theorem assignItem_then_unassign data split item (names : list string) :
  assignItem data (assignItem data split item names) item []
  = assignItem data split item [].
Proof.
  rewrite !assignItem_nil.
  unfold assignItem at 1.
  rewrite recalculate_cleared_recalculate, cleared_cleanup.
  destruct (0 <? List.length names).
  - rewrite cleared_forEach, cleared_removeItem.
    + reflexivity.
    + unfold isEntryOf. simpl. apply String.eqb_refl.
  - rewrite cleared_removeItem. reflexivity.
Qed.

End UndoFacts.

(** ** Parsing the assignee input *)

Section ParsingFacts.

Lemma splitComma_nonempty (s : string) : splitComma s <> [].
Proof.
  destruct s as [|c rest]; simpl; [discriminate|].
  destruct (Ascii.eqb c ","); [discriminate|].
  destruct (splitComma rest); discriminate.
Qed.

Lemma splitComma_noComma (s : string) :
  noComma s = true -> splitComma s = [s].
Proof.
  induction s as [|c rest IH]; simpl; [reflexivity|].
  destruct (Ascii.eqb c ","); simpl; [discriminate|].
  intros H. rewrite IH by exact H. reflexivity.
Qed.

Lemma splitComma_app_comma (a b : string) :
  noComma a = true ->
  splitComma (a ++ String "," b) = a :: splitComma b.
Proof.
  induction a as [|c rest IH]; simpl; [reflexivity|].
  destruct (Ascii.eqb c ","); simpl; [discriminate|].
  intros H. rewrite IH by exact H. reflexivity.
Qed.

Lemma splitComma_pieces_noComma (s : string) :
  Forall (fun piece => noComma piece = true) (splitComma s).
Proof.
  induction s as [|c rest IH]; simpl.
  - repeat constructor.
  - destruct (Ascii.eqb c ",") eqn:E.
    + constructor; [reflexivity | exact IH].
    + destruct (splitComma rest) as [|piece pieces].
      * repeat constructor. simpl. rewrite E. reflexivity.
      * inversion IH as [|? ? Hp Hps]; subst.
        constructor; [|exact Hps]. simpl. rewrite E, Hp. reflexivity.
Qed.

Lemma trimStart_noComma (s : string) :
  noComma s = true -> noComma (trimStart s) = true.
Proof.
  induction s as [|c rest IH]; simpl; [reflexivity|].
  intros H. apply andb_prop in H as [Hc Hrest].
  destruct (isWhiteSpace c); [apply IH; exact Hrest|].
  simpl. rewrite Hc, Hrest. reflexivity.
Qed.

Lemma trimEnd_noComma (s : string) :
  noComma s = true -> noComma (trimEnd s) = true.
Proof.
  induction s as [|c rest IH]; simpl; [reflexivity|].
  intros H. apply andb_prop in H as [Hc Hrest].
  specialize (IH Hrest).
  destruct (trimEnd rest) as [|k kept].
  - destruct (isWhiteSpace c); simpl; [reflexivity|].
    rewrite Hc. reflexivity.
  - change (negb (Ascii.eqb c ",") && noComma (String k kept) = true).
    rewrite Hc, IH. reflexivity.
Qed.

Lemma trimEnd_idempotent (s : string) : trimEnd (trimEnd s) = trimEnd s.
Proof.
  induction s as [|c rest IH]; simpl; [reflexivity|].
  destruct (trimEnd rest) as [|k kept] eqn:E.
  - destruct (isWhiteSpace c) eqn:Hc; simpl; [reflexivity|].
    rewrite Hc. reflexivity.
  - change (match trimEnd (String k kept) with
            | EmptyString =>
                if isWhiteSpace c then EmptyString else String c EmptyString
            | String _ _ as again => String c again
            end = String c (String k kept)).
    rewrite IH. reflexivity.
Qed.

Lemma trimStart_startsClean (s : string) : startsClean (trimStart s).
Proof.
  induction s as [|c rest IH]; simpl; [exact I|].
  destruct (isWhiteSpace c) eqn:E; [exact IH | exact E].
Qed.

Lemma trimStart_fixed (s : string) : startsClean s -> trimStart s = s.
Proof.
  destruct s as [|c rest]; simpl; [reflexivity|].
  intros ->. reflexivity.
Qed.

Lemma trimEnd_startsClean (s : string) : startsClean s -> startsClean (trimEnd s).
Proof.
  destruct s as [|c rest]; simpl; [exact (fun H => H)|].
  intros Hc. destruct (trimEnd rest); [rewrite Hc|]; exact Hc.
Qed.

Lemma trim_idempotent (s : string) : trim (trim s) = trim s.
Proof.
  unfold trim.
  rewrite (trimStart_fixed (trimEnd (trimStart s))).
  - apply trimEnd_idempotent.
  - apply trimEnd_startsClean, trimStart_startsClean.
Qed.

Lemma trimStart_empty (s : string) :
  trimStart s = "" <-> trimIsEmpty s = true.
Proof.
  induction s as [|c rest IH]; simpl; [tauto|].
  destruct (isWhiteSpace c); simpl; [exact IH|].
  split; discriminate.
Qed.

Lemma trimEnd_empty_startsClean (s : string) :
  startsClean s -> trimEnd s = "" -> s = "".
Proof.
  destruct s as [|c rest]; simpl; [reflexivity|].
  intros Hc. destruct (trimEnd rest); [rewrite Hc|]; discriminate.
Qed.

(** The guard [!input.trim()] of [handleSendMessage], as modelled by
    [trimIsEmpty], is the emptiness of [trim]. *)
Lemma trim_empty (s : string) : trim s = "" <-> trimIsEmpty s = true.
Proof.
  rewrite <- trimStart_empty. unfold trim. split.
  - apply trimEnd_empty_startsClean, trimStart_startsClean.
  - intros ->. reflexivity.
Qed.

Lemma forallb_trimIsEmpty_splitComma (s : string) :
  forallb trimIsEmpty (splitComma s) = blankInput s.
Proof.
  induction s as [|c rest IH]; simpl; [reflexivity|].
  destruct (Ascii.eqb c ",") eqn:E; simpl.
  - rewrite IH, orb_true_r. reflexivity.
  - rewrite orb_false_r, <- IH.
    pose proof (splitComma_nonempty rest) as Hne.
    destruct (splitComma rest) as [|piece pieces]; [congruence|].
    simpl. rewrite andb_assoc. reflexivity.
Qed.

Lemma filter_nonempty_trim_nil (pieces : list string) :
  filter (fun name => negb (String.eqb name "")) (List.map trim pieces) = []
  <-> forallb trimIsEmpty pieces = true.
Proof.
  induction pieces as [|piece pieces IH]; simpl; [tauto|].
  destruct (String.eqb (trim piece) "") eqn:E; simpl.
  - apply String.eqb_eq, trim_empty in E. rewrite E. exact IH.
  - assert (Ht : trimIsEmpty piece = false).
    { destruct (trimIsEmpty piece) eqn:Ht; [|reflexivity].
      apply trim_empty in Ht. rewrite Ht in E. discriminate. }
    rewrite Ht. simpl. split; discriminate.
Qed.



Lemma splitComma_join (name : string) (names : list string) :
  Forall (fun n => noComma n = true) (name :: names) ->
  splitComma (String.concat ", " (name :: names))
  = name :: List.map (String " ") names.
Proof.
  revert name. induction names as [|next names IH]; intros name Hall.
  - simpl. apply splitComma_noComma. inversion Hall; assumption.
  - inversion Hall as [|? ? Hname Hrest]; subst.
    change (String.concat ", " (name :: next :: names))
      with (name ++ String "," (String " " (String.concat ", " (next :: names))))%string.
    rewrite splitComma_app_comma by exact Hname.
    change (splitComma (String " " (String.concat ", " (next :: names))))
      with (match splitComma (String.concat ", " (next :: names)) with
            | piece :: pieces => String " " piece :: pieces
            | [] => [String " " EmptyString]
            end).
    rewrite (IH next Hrest). reflexivity.
Qed.

Lemma trim_leading_space (s : string) : trim (String " " s) = trim s.
Proof. reflexivity. Qed.

(** The names shown for an item, joined by [', '] and read back, are the
    same names. *)
Lemma parseAssignees_join (names : list string) :
  Forall cleanName names ->
  parseAssignees (String.concat ", " names) = names.
Proof.
  intros Hall. destruct names as [|name names]; [reflexivity|].
  unfold parseAssignees. rewrite splitComma_join.
  - assert (Hfix : forall l, Forall cleanName l ->
                             filter (fun n => negb (String.eqb n ""))
                               (List.map trim l) = l).
    { induction l as [|x l IH]; intros Hl; simpl; [reflexivity|].
      inversion Hl as [|? ? [Hne [_ Ht]] Hl']; subst.
      rewrite Ht. apply String.eqb_neq in Hne. rewrite Hne. simpl.
      rewrite IH by exact Hl'. reflexivity. }
    simpl List.map. rewrite map_map.
    rewrite (map_ext (fun n => trim (String " " n)) trim trim_leading_space).
    apply (Hfix (name :: names)). exact Hall.
  - apply Forall_impl with (P := cleanName); [|exact Hall].
    intros n [_ [Hc _]]. exact Hc.
Qed.

(** X24. For a data URL made of a header and a payload without commas,
    joined by a comma, [fileToBase64] resolves to the payload; for a string
    without any comma it resolves to [undefined]. *)
Theorem base64OfDataUrl_payload (header payload : string) :
  noComma header = true -> noComma payload = true ->
  base64OfDataUrl (header ++ String "," payload) = Some payload
  /\ base64OfDataUrl header = None.
Proof.
  intros Hh Hp. unfold base64OfDataUrl. split.
  - rewrite splitComma_app_comma, splitComma_noComma by assumption.
    reflexivity.
  - rewrite splitComma_noComma by assumption. reflexivity.
Qed.

End ParsingFacts.

(** ** Saving an assignment from the editor *)

Section SaveAssignmentFacts.

Context {num : Type} {N : JsNumber num}.

Implicit Types (item : ReceiptItem num) (ps : PanelState num).




End SaveAssignmentFacts.

(** ** The edit session *)

Section SessionFacts.

Context {num : Type} {N : JsNumber num}.

Implicit Types (st : AppState num) (draft : ReceiptData num).

Lemma AppState_ext st st' :
  receiptData st = receiptData st' ->
  billSplit st = billSplit st' ->
  chatMessages st = chatMessages st' ->
  isLoading st = isLoading st' ->
  error st = error st' ->
  isReceiptEditing st = isReceiptEditing st' ->
  editingReceiptData st = editingReceiptData st' ->
  st = st'.
Proof.
  destruct st, st'. simpl. intros. subst. reflexivity.
Qed.

(** A draft action changes the draft and nothing else. *)
Lemma draftStep_frame st (action : DraftAction num) :
  receiptData (draftStep st action) = receiptData st
  /\ billSplit (draftStep st action) = billSplit st
  /\ chatMessages (draftStep st action) = chatMessages st
  /\ isLoading (draftStep st action) = isLoading st
  /\ error (draftStep st action) = error st
  /\ isReceiptEditing (draftStep st action) = isReceiptEditing st.
Proof.
  assert (Hedit : forall edit,
             receiptData (handleReceiptEdit edit st) = receiptData st
             /\ billSplit (handleReceiptEdit edit st) = billSplit st
             /\ chatMessages (handleReceiptEdit edit st) = chatMessages st
             /\ isLoading (handleReceiptEdit edit st) = isLoading st
             /\ error (handleReceiptEdit edit st) = error st
             /\ isReceiptEditing (handleReceiptEdit edit st) = isReceiptEditing st).
  { intros edit. unfold handleReceiptEdit.
    destruct (editingReceiptData st) as [draft|]; [|repeat split].
    destruct (writeField edit draft); repeat split. }
  destruct action as [edit| |index]; simpl.
  - apply Hedit.
  - unfold handleAddItem. destruct (editingReceiptData st); [apply Hedit | repeat split].
  - unfold handleRemoveItem. destruct (editingReceiptData st); [apply Hedit | repeat split].
Qed.

Lemma runDraftActions_frame (actions : list (DraftAction num)) st :
  receiptData (runDraftActions actions st) = receiptData st
  /\ billSplit (runDraftActions actions st) = billSplit st
  /\ chatMessages (runDraftActions actions st) = chatMessages st
  /\ isLoading (runDraftActions actions st) = isLoading st
  /\ error (runDraftActions actions st) = error st
  /\ isReceiptEditing (runDraftActions actions st) = isReceiptEditing st.
Proof.
  unfold runDraftActions. revert st.
  induction actions as [|action actions IH]; intros st; simpl.
  - repeat split.
  - destruct (IH (draftStep st action)) as (H1 & H2 & H3 & H4 & H5 & H6).
    destruct (draftStep_frame st action) as (F1 & F2 & F3 & F4 & F5 & F6).
    rewrite H1, H2, H3, H4, H5, H6. repeat split; assumption.
Qed.

(** X10. From a state that is not in edit mode, entering edit mode,
    performing any sequence of edits, additions and removals on the draft
    and cancelling gives back the very same state: the receipt, the split
    and the log never see the draft. *)
Theorem edit_session_cancel_restores (actions : list (DraftAction num)) st :
  isReceiptEditing st = false ->
  editingReceiptData st = None ->
  editingEffect
    (setIsReceiptEditing false
       (runDraftActions actions (editingEffect (setIsReceiptEditing true st))))
  = st.
Proof.
  intros Hv Hd.
  destruct (runDraftActions_frame actions
              (editingEffect (setIsReceiptEditing true st)))
    as (H1 & H2 & H3 & H4 & H5 & _).
  apply AppState_ext; simpl.
  - rewrite H1. reflexivity.
  - rewrite H2. reflexivity.
  - rewrite H3. reflexivity.
  - rewrite H4. reflexivity.
  - rewrite H5. reflexivity.
  - symmetry. exact Hv.
  - symmetry. exact Hd.
Qed.

Lemma updateAt_length {A : Type} (f : A -> A) (arr arr' : list A) (index : nat) :
  updateAt index f arr = Some arr' -> List.length arr' = List.length arr.
Proof.
  revert index arr'.
  induction arr as [|x arr IH]; intros index arr' Hu.
  - destruct index; discriminate.
  - destruct index as [|i]; cbn in Hu.
    + inversion Hu; subst. reflexivity.
    + destruct (updateAt i f arr) as [rest'|] eqn:Hr; [|discriminate].
      inversion Hu; subst. simpl. rewrite (IH i rest' Hr). reflexivity.
Qed.

Lemma updateAt_other {A : Type} (f : A -> A) (arr arr' : list A) (index other : nat) :
  updateAt index f arr = Some arr' -> other <> index ->
  nth_error arr' other = nth_error arr other.
Proof.
  revert index other arr'.
  induction arr as [|x arr IH]; intros index other arr' Hu Hneq.
  - destruct index; discriminate.
  - destruct index as [|i]; cbn in Hu.
    + inversion Hu; subst. destruct other; [congruence | reflexivity].
    + destruct (updateAt i f arr) as [rest'|] eqn:Hr; [|discriminate].
      inversion Hu; subst. destruct other as [|o]; [reflexivity|].
      simpl. apply (IH i o rest' Hr). congruence.
Qed.

Lemma editItem_spec (index : nat) (f : ReceiptItem num -> ReceiptItem num)
    draft newData :
  editItem index f draft = Some newData ->
  subtotal newData = subtotal draft /\ tax newData = tax draft
  /\ tip newData = tip draft
  /\ List.length (items newData) = List.length (items draft)
  /\ forall other, other <> index ->
                   nth_error (items newData) other = nth_error (items draft) other.
Proof.
  unfold editItem.
  destruct (updateAt index f (items draft)) as [items'|] eqn:Hu; [|discriminate].
  intros Heq. inversion Heq; subst; clear Heq. simpl.
  split; [reflexivity|]. split; [reflexivity|]. split; [reflexivity|]. split.
  - apply (updateAt_length f _ _ index Hu).
  - intros other Hneq. apply (updateAt_other f _ _ index other Hu Hneq).
Qed.

Lemma writeField_item_spec (edit : ReceiptEdit num) (index : nat) draft newData :
  editTarget edit = Some index ->
  writeField edit draft = Some newData ->
  subtotal newData = subtotal draft /\ tax newData = tax draft
  /\ tip newData = tip draft
  /\ List.length (items newData) = List.length (items draft)
  /\ forall other, other <> index ->
                   nth_error (items newData) other = nth_error (items draft) other.
Proof.
  destruct edit; simpl; intros Ht Hw; try discriminate;
    inversion Ht; subst; eapply editItem_spec; exact Hw.
Qed.

(** X11. An edit of a field of an existing item changes that item only:
    the draft keeps its subtotal, tax and tip (the subtotal is not
    recomputed from the items), the number of items and every other
    item. *)
Theorem handleReceiptEdit_item_only (edit : ReceiptEdit num) (index : nat) st draft :
  editingReceiptData st = Some draft ->
  editTarget edit = Some index ->
  index < List.length (items draft) ->
  exists newDraft,
    editingReceiptData (handleReceiptEdit edit st) = Some newDraft
    /\ subtotal newDraft = subtotal draft
    /\ tax newDraft = tax draft
    /\ tip newDraft = tip draft
    /\ List.length (items newDraft) = List.length (items draft)
    /\ forall other, other <> index ->
                     nth_error (items newDraft) other = nth_error (items draft) other.
Proof.
  intros Hd Ht Hlt.
  assert (Hr : editInRange edit draft).
  { destruct edit; simpl in *; try discriminate; inversion Ht; subst; exact Hlt. }
  destruct (writeField_in_range edit draft Hr) as [newData Hw].
  exists (autoUpdateTotal newData). split.
  - apply (handleReceiptEdit_applied edit st draft newData Hd Hw).
  - exact (writeField_item_spec edit index draft newData Ht Hw).
Qed.

(** X12. An edit of a field of an item that does not exist changes
    nothing at all. *)
Theorem handleReceiptEdit_out_of_range (edit : ReceiptEdit num) (index : nat) st draft :
  editingReceiptData st = Some draft ->
  editTarget edit = Some index ->
  List.length (items draft) <= index ->
  handleReceiptEdit edit st = st.
Proof.
  intros Hd Ht Hle. unfold handleReceiptEdit. rewrite Hd.
  assert (Hw : writeField edit draft = None).
  { destruct edit; simpl in *; try discriminate; inversion Ht; subst;
      unfold editItem; rewrite updateAt_out_of_range by exact Hle; reflexivity. }
  rewrite Hw. reflexivity.
Qed.

Lemma removeAt_last {A : Type} (arr : list A) (x : A) :
  removeAt (List.length arr) (arr ++ [x]) = arr.
Proof.
  induction arr as [|y arr IH]; simpl; [reflexivity|].
  rewrite IH. reflexivity.
Qed.

(** X13. Adding an item to the draft and removing the item at the last
    position gives back the items, the subtotal, the tax and the tip the
    draft had. *)
Theorem handleAddItem_then_remove st draft :
  editingReceiptData st = Some draft ->
  exists newDraft,
    editingReceiptData
      (handleRemoveItem (List.length (items draft)) (handleAddItem st))
    = Some newDraft
    /\ items newDraft = items draft
    /\ subtotal newDraft = subtotal draft
    /\ tax newDraft = tax draft
    /\ tip newDraft = tip draft.
Proof.
  intros Hd.
  assert (Hadd : editingReceiptData (handleAddItem st)
                 = Some (autoUpdateTotal (withItems draft (items draft ++ [newItem])))).
  { unfold handleAddItem. rewrite Hd.
    apply (handleReceiptEdit_applied _ st draft); [exact Hd | reflexivity]. }
  unfold handleRemoveItem. rewrite Hadd.
  eexists. split.
  - eapply handleReceiptEdit_applied; [exact Hadd | reflexivity].
  - simpl. rewrite removeAt_last. repeat split.
Qed.

End SessionFacts.

(** ** Uploads, resets and the log *)

Section AppFacts.

Context {num : Type} {N : JsNumber num}.

Implicit Types (st : AppState num).

(** X14. Whatever the session was, once an upload has been parsed and the
    chat panel's effect has run, the state holds the new receipt, an empty
    split, a log of the single loaded-notice, no error and no pending
    call, outside edit mode. *)
Theorem handleFileChange_loads st (parsedData : ReceiptData num) :
  let st' := chatEffect (handleFileChange true (ParsedReceipt parsedData) st) in
  receiptData st' = Some parsedData
  /\ billSplit st' = []
  /\ chatMessages st' = [receiptLoadedNotice]
  /\ isLoading st' = false
  /\ error st' = None
  /\ isReceiptEditing st' = false.
Proof. repeat split. Qed.

(** X15. An upload that fails does not keep the previous session: the
    receipt, the split and the log are gone, and a non-empty error message
    is set. *)
Theorem handleFileChange_failure_discards st (reply : ExtractionReply num) :
  (forall parsedData, reply <> ParsedReceipt parsedData) ->
  let st' := handleFileChange true reply st in
  receiptData st' = None
  /\ billSplit st' = []
  /\ chatMessages st' = []
  /\ isLoading st' = false
  /\ exists message, error st' = Some message /\ message <> "".
Proof.
  intros Hnot.
  destruct reply as [parsedData| |message].
  - exfalso. apply (Hnot parsedData). reflexivity.
  - repeat split. eexists. split; [reflexivity | discriminate].
  - simpl. repeat split.
    destruct (String.eqb message "") eqn:E.
    + eexists. split; [reflexivity | discriminate].
    + exists message. split; [reflexivity|]. apply String.eqb_neq. exact E.
Qed.

(** X16. A confirmed new tab, once the effects of both panels have run,
    leaves the state of a fresh application whatever the session was; a
    declined one changes nothing. *)
Theorem handleStartNewTab_resets st :
  editingEffect (chatEffect (handleStartNewTab true st)) = initialState
  /\ handleStartNewTab false st = st.
Proof. split; reflexivity. Qed.



Lemma sessionStep_invariant st (action : SessionAction num) :
  receiptData (sessionStep st action) = receiptData st
  /\ isReceiptEditing (sessionStep st action) = isReceiptEditing st
  /\ exists added, chatMessages (sessionStep st action) = chatMessages st ++ added.
Proof.
  destruct action as [input reply|item names|action| |]; simpl.
  - unfold handleSendMessage.
    destruct st as [r b c l e ed d]; simpl.
    destruct r as [receipt|]; simpl;
      [|repeat split; exists nil; rewrite app_nil_r; reflexivity].
    destruct (trimIsEmpty input || l); simpl;
      [repeat split; exists nil; rewrite app_nil_r; reflexivity|].
    destruct (updateBillSplit reply); simpl; repeat split.
    + eexists. reflexivity.
    + eexists. rewrite <- app_assoc. reflexivity.
  - repeat split. eexists. reflexivity.
  - destruct (draftStep_frame st action) as (H1 & _ & H3 & _ & _ & H6).
    rewrite H1, H3, H6. repeat split. exists nil. rewrite app_nil_r. reflexivity.
  - unfold handleSaveReceipt. destruct (editingReceiptData st);
      repeat split; exists nil; rewrite app_nil_r; reflexivity.
  - repeat split. exists nil. rewrite app_nil_r. reflexivity.
Qed.

(** X19. Along any sequence of chat messages (whatever the service
    answers), manual assignments, draft edits and declined confirmations,
    the receipt stays the same, edit mode is neither entered nor left, and
    the log only grows: the messages it held stay in place at its front. *)
Theorem runSession_invariant (actions : list (SessionAction num)) st :
  receiptData (runSession actions st) = receiptData st
  /\ isReceiptEditing (runSession actions st) = isReceiptEditing st
  /\ exists added, chatMessages (runSession actions st) = chatMessages st ++ added.
Proof.
  unfold runSession. revert st.
  induction actions as [|action actions IH]; intros st; simpl.
  - repeat split. exists nil. rewrite app_nil_r. reflexivity.
  - destruct (IH (sessionStep st action)) as (H1 & H2 & [added2 H3]).
    destruct (sessionStep_invariant st action) as (S1 & S2 & [added1 S3]).
    rewrite H1, H2, H3, S1, S2, S3. repeat split.
    exists (added1 ++ added2). rewrite app_assoc. reflexivity.
Qed.

End AppFacts.

(** ** Exact arithmetic: sums over the split *)

Section ExactSumFacts.

Local Open Scope Qc_scope.

Implicit Types (receipt : ReceiptData Qc) (split : BillSplit Qc).

Lemma sumOf_cons (x : Qc) (xs : list Qc) : sumOf (x :: xs) = x + sumOf xs.
Proof. reflexivity. Qed.

Lemma recalculatePerson_exact receipt (person : PersonSplit Qc) :
  let s := sumOf (List.map a_price (p_items person)) in
  p_subtotal (recalculatePerson receipt person) = s
  /\ p_tax (recalculatePerson receipt person) = tax receipt * (s / subtotal receipt)
  /\ p_tip (recalculatePerson receipt person) = tip receipt * (s / subtotal receipt)
  /\ p_total (recalculatePerson receipt person)
     = s + tax receipt * (s / subtotal receipt)
       + tip receipt * (s / subtotal receipt).
Proof.
  unfold recalculatePerson. cbn [p_subtotal p_tax p_tip p_total].
  rewrite reduce_sumOf.
  change (add zero (sumOf (List.map a_price (p_items person))))
    with (0 + sumOf (List.map a_price (p_items person))).
  rewrite Qcplus_0_l. repeat split.
Qed.

Lemma recalculated_sums receipt split :
  subtotal receipt <> 0 ->
  let assigned :=
    sumOf (List.map (fun p => sumOf (List.map a_price (p_items p))) split) in
  let shares := List.map (recalculatePerson receipt) split in
  sumOf (List.map p_subtotal shares) = assigned
  /\ sumOf (List.map p_tax shares) = tax receipt * (assigned / subtotal receipt)
  /\ sumOf (List.map p_tip shares) = tip receipt * (assigned / subtotal receipt).
Proof.
  intros Hnz. induction split as [|person rest IH]; cbn zeta.
  - cbn [List.map]. change (sumOf []) with 0. repeat split; field; exact Hnz.
  - cbn zeta in IH. destruct IH as (IHs & IHt & IHp).
    destruct (recalculatePerson_exact receipt person) as (Hs & Ht & Hp & _).
    cbn zeta in Hs, Ht, Hp.
    cbn [List.map]. rewrite !sumOf_cons, IHs, IHt, IHp, Hs, Ht, Hp.
    repeat split; field; exact Hnz.
Qed.

Lemma recalculated_totals receipt split :
  let shares := List.map (recalculatePerson receipt) split in
  sumOf (List.map p_total shares)
  = sumOf (List.map p_subtotal shares) + sumOf (List.map p_tax shares)
    + sumOf (List.map p_tip shares).
Proof.
  cbn zeta. induction split as [|person rest IH].
  - cbn [List.map]. change (sumOf []) with 0. ring.
  - cbn [List.map]. rewrite !sumOf_cons, IH.
    change (p_total (recalculatePerson receipt person))
      with (p_subtotal (recalculatePerson receipt person)
            + p_tax (recalculatePerson receipt person)
            + p_tip (recalculatePerson receipt person)).
    ring.
Qed.

Lemma shares_add_up receipt split :
  subtotal receipt <> 0 ->
  sumOf (List.map (fun p => sumOf (List.map a_price (p_items p))) split)
  = subtotal receipt ->
  let shares := recalculateBillSplit (Some receipt) split in
  sumOf (List.map p_subtotal shares) = subtotal receipt
  /\ sumOf (List.map p_tax shares) = tax receipt
  /\ sumOf (List.map p_tip shares) = tip receipt
  /\ sumOf (List.map p_total shares)
     = subtotal receipt + tax receipt + tip receipt.
Proof.
  intros Hnz Hall. cbn zeta. unfold recalculateBillSplit.
  destruct (isZero (subtotal receipt)) eqn:Hz.
  { apply isZero_exact in Hz. contradiction. }
  pose proof (recalculated_totals receipt split) as Htot. cbn zeta in Htot.
  destruct (recalculated_sums receipt split Hnz) as (Hs & Ht & Hp).
  cbn zeta in Hs, Ht, Hp. rewrite Hall in Hs, Ht, Hp.
  assert (Ht' : sumOf (List.map p_tax (List.map (recalculatePerson receipt) split))
                = tax receipt).
  { rewrite Ht. field. exact Hnz. }
  assert (Hp' : sumOf (List.map p_tip (List.map (recalculatePerson receipt) split))
                = tip receipt).
  { rewrite Hp. field. exact Hnz. }
  rewrite Htot, Hs, Ht', Hp'. repeat split.
Qed.

(** X20. In exact arithmetic, when the portions assigned across the split
    add up to the receipt's non-zero subtotal, the recalculated shares add
    up to the receipt: the subtotals to its subtotal, the taxes to its tax,
    the tips to its tip and the totals to subtotal + tax + tip. *)
Theorem recalculateBillSplit_shares_add_up receipt split :
  subtotal receipt <> 0 ->
  sumOf (List.map (fun p => sumOf (List.map a_price (p_items p))) split)
  = subtotal receipt ->
  let shares := recalculateBillSplit (Some receipt) split in
  sumOf (List.map p_subtotal shares) = subtotal receipt
  /\ sumOf (List.map p_tax shares) = tax receipt
  /\ sumOf (List.map p_tip shares) = tip receipt
  /\ sumOf (List.map p_total shares)
     = subtotal receipt + tax receipt + tip receipt.
Proof.
  intros Hnz Hall. apply shares_add_up; assumption.
Qed.

Lemma draftStep_keeps_derived (st : AppState Qc) (action : DraftAction Qc) :
  draftTotalIsDerived st -> draftTotalIsDerived (draftStep st action).
Proof.
  intros [draft [Hd Htot]].
  assert (Hedit : forall edit, draftTotalIsDerived (handleReceiptEdit edit st)).
  { intros edit. unfold handleReceiptEdit. rewrite Hd.
    destruct (writeField edit draft) as [newData|].
    - exists (autoUpdateTotal newData). split; reflexivity.
    - exists draft. split; assumption. }
  destruct action as [edit| |index]; simpl.
  - apply Hedit.
  - unfold handleAddItem. rewrite Hd. apply Hedit.
  - unfold handleRemoveItem. rewrite Hd. apply Hedit.
Qed.

(** X21. In exact arithmetic, if the receipt's total is subtotal + tax +
    tip when edit mode is entered, then after any sequence of edits,
    additions and removals a confirmed save commits a receipt whose total is
    again its subtotal + tax + tip. *)
Theorem edit_session_commit_total (actions : list (DraftAction Qc))
    (st : AppState Qc) receipt :
  receiptData st = Some receipt ->
  totalIsDerived receipt ->
  exists committed,
    receiptData
      (handleSaveReceipt true
         (runDraftActions actions (editingEffect (setIsReceiptEditing true st))))
    = Some committed
    /\ totalIsDerived committed.
Proof.
  intros Hr Htot.
  assert (Hrun : forall actions (st0 : AppState Qc),
             draftTotalIsDerived st0 ->
             draftTotalIsDerived (runDraftActions actions st0)).
  { clear. intros actions. unfold runDraftActions.
    induction actions as [|action actions IH]; intros st0 H0; simpl.
    - exact H0.
    - apply IH, draftStep_keeps_derived, H0. }
  destruct (Hrun actions (editingEffect (setIsReceiptEditing true st)))
    as [draft [Hd Hderived]].
  { exists receipt. split; [simpl; exact Hr | exact Htot]. }
  exists draft. split; [|exact Hderived].
  unfold handleSaveReceipt. rewrite Hd. reflexivity.
Qed.

End ExactSumFacts.

(** ** A receipt whose subtotal is zero *)

Section DegenerateFacts.

Context {num : Type} {N : JsNumber num}.

Implicit Types (split : BillSplit num) (person : PersonSplit num).

Local Abbreviation untouched split :=
  (fun person => zeroMoney person \/ exists other, In other split /\ sameMoney person other).

Lemma sameMoney_refl person : sameMoney person person.
Proof. repeat split. Qed.

Lemma pushItem_untouched split (name : string) (entry : AssignedItem num) acc :
  Forall (untouched split) acc ->
  Forall (untouched split) (pushItem name entry acc).
Proof.
  induction 1 as [|person rest Hp Hrest IH]; simpl.
  - constructor; [|constructor]. left. repeat split.
  - destruct (String.eqb (person_name person) name).
    + constructor; [|exact Hrest].
      destruct Hp as [(H1 & H2 & H3 & H4) | [other [Hin Hsame]]].
      * left. repeat split; assumption.
      * right. exists other. split; [exact Hin | exact Hsame].
    + constructor; [exact Hp | exact IH].
Qed.

Lemma forEach_untouched split (entry : AssignedItem num) (names : list string) acc :
  Forall (untouched split) acc ->
  Forall (untouched split)
    (fold_left (fun acc n => pushItem n entry acc) names acc).
Proof.
  revert acc. induction names as [|n names IH]; intros acc Hacc; simpl.
  - exact Hacc.
  - apply IH, pushItem_untouched, Hacc.
Qed.


End DegenerateFacts.

(** ** The whole receipt on one item *)

Section WholeReceiptFacts.

Local Open Scope Qc_scope.

Lemma sumOf_app (xs ys : list Qc) : sumOf (xs ++ ys) = sumOf xs + sumOf ys.
Proof.
  induction xs as [|x xs IH].
  - change (sumOf ys = 0 + sumOf ys). ring.
  - rewrite <- app_comm_cons, !sumOf_cons, IH. ring.
Qed.

Lemma pushItem_only_item (item_nm name : string) (entry : AssignedItem Qc)
    (acc : BillSplit Qc) :
  isEntryOf item_nm entry = true ->
  Forall (fun p => entriesOf item_nm p = p_items p) acc ->
  Forall (fun p => entriesOf item_nm p = p_items p) (pushItem name entry acc).
Proof.
  intros He. induction 1 as [|person rest Hp Hrest IH]; simpl.
  - constructor; [|constructor]. unfold entriesOf. simpl. rewrite He. reflexivity.
  - destruct (String.eqb (person_name person) name).
    + constructor; [|exact Hrest]. unfold entriesOf in *. simpl.
      rewrite filter_app, Hp. simpl. rewrite He. reflexivity.
    + constructor; [exact Hp | exact IH].
Qed.

Lemma assigned_sum_only_item (item_nm : string) (split : BillSplit Qc) :
  Forall (fun p => entriesOf item_nm p = p_items p) split ->
  sumOf (List.map (fun p => sumOf (List.map a_price (p_items p))) split)
  = portionTotal item_nm split.
Proof.
  unfold portionTotal, allEntriesOf.
  induction 1 as [|person rest Hp _ IH]; simpl flat_map; cbn [List.map].
  - reflexivity.
  - rewrite sumOf_cons, map_app, sumOf_app, IH, Hp. reflexivity.
Qed.

(** X23. In exact arithmetic, when one item carries the receipt's whole
    non-zero subtotal, assigning it to any non-empty list of names from an
    empty split gives shares that add up to the receipt: taxes to its tax,
    tips to its tip, totals to subtotal + tax + tip. *)
Theorem assignItem_whole_receipt (receipt : ReceiptData Qc) (item : ReceiptItem Qc)
    (names : list string) :
  names <> [] ->
  subtotal receipt <> 0 ->
  price item = subtotal receipt ->
  let shares := assignItem (Some receipt) [] item names in
  sumOf (List.map p_tax shares) = tax receipt
  /\ sumOf (List.map p_tip shares) = tip receipt
  /\ sumOf (List.map p_total shares)
     = subtotal receipt + tax receipt + tip receipt.
Proof.
  intros Hne Hnz Hprice. cbn zeta.
  pose proof (allEntriesOf_assignItem (Some receipt) [] item names) as Hall.
  unfold assignItem in *.
  assert (Hlen : (0 <? List.length names)%nat = true).
  { destruct names; [congruence | reflexivity]. }
  rewrite Hlen in *. simpl List.map in *.
  set (entry := {| a_item_name := item_name item;
                   a_price := div (price item) (ofNat (List.length names)) |}) in *.
  set (kept := filter (fun p => (0 <? List.length (p_items p))%nat)
                 (fold_left (fun acc n => pushItem n entry acc) names [])) in *.
  rewrite allEntriesOf_recalculate in Hall.
  assert (Honly : Forall (fun p => entriesOf (item_name item) p = p_items p) kept).
  { unfold kept.
    assert (Hfold : forall ns acc,
               Forall (fun p => entriesOf (item_name item) p = p_items p) acc ->
               Forall (fun p => entriesOf (item_name item) p = p_items p)
                 (fold_left (fun acc n => pushItem n entry acc) ns acc)).
    { intros ns. induction ns as [|n ns IH]; intros acc Hacc; simpl.
      - exact Hacc.
      - apply IH, pushItem_only_item; [|exact Hacc].
        unfold isEntryOf. simpl. apply String.eqb_refl. }
    pose proof (Hfold names [] (Forall_nil _)) as Hf.
    rewrite Forall_forall in *. intros p Hin.
    apply filter_In in Hin as [Hin _]. apply Hf. exact Hin. }
  assert (Hsum : sumOf (List.map (fun p => sumOf (List.map a_price (p_items p))) kept)
                 = subtotal receipt).
  { rewrite (assigned_sum_only_item (item_name item) kept Honly).
    unfold portionTotal. rewrite Hall, map_repeat, sumOf_repeat.
    unfold entry. cbn [a_price].
    change (div (price item) (ofNat (List.length names)))
      with (price item / ofNat (List.length names)).
    rewrite <- Hprice. field.
    apply ofNat_nonzero. destruct names; [congruence | discriminate]. }
  destruct (shares_add_up receipt kept Hnz Hsum) as (_ & Ht & Hp & Htot).
  repeat split; assumption.
Qed.

End WholeReceiptFacts.

(** ** Unique names, fixed points and the commit *)

Section ConsistencyFacts.

Context {num : Type} {N : JsNumber num}.

Implicit Types (data : option (ReceiptData num)) (split : BillSplit num).
Implicit Types (item : ReceiptItem num) (names : list string) (st : AppState num).

Lemma pushItem_names (name : string) (entry : AssignedItem num) split :
  List.map person_name (pushItem name entry split)
  = pushUnique (List.map person_name split) name.
Proof.
  unfold pushUnique.
  induction split as [|person rest IH]; simpl; [reflexivity|].
  rewrite (String.eqb_sym name (person_name person)).
  destruct (String.eqb (person_name person) name); simpl; [reflexivity|].
  rewrite IH.
  destruct (existsb (String.eqb name) (List.map person_name rest)); reflexivity.
Qed.

Lemma forEach_names (entry : AssignedItem num) names split :
  List.map person_name (fold_left (fun acc n => pushItem n entry acc) names split)
  = fold_left pushUnique names (List.map person_name split).
Proof.
  revert split. induction names as [|n names IH]; intros split; simpl.
  - reflexivity.
  - rewrite IH, pushItem_names. reflexivity.
Qed.

Lemma NoDup_map_filter {A B : Type} (f : A -> B) (g : A -> bool) (l : list A) :
  NoDup (List.map f l) -> NoDup (List.map f (filter g l)).
Proof.
  induction l as [|x l IH]; simpl; intros Hnd; [constructor|].
  inversion Hnd as [|? ? Hnot Hrest]; subst.
  destruct (g x); simpl; [|apply IH; exact Hrest].
  constructor; [|apply IH; exact Hrest].
  intros Hin. apply Hnot.
  apply in_map_iff in Hin as [y [Hy Hin]].
  apply filter_In in Hin as [Hin _].
  apply in_map_iff. exists y. split; assumption.
Qed.

(** X25. [assignItem] keeps the names of the split unique: when no two
    people of the split share a name, no two people of the result do. *)
Theorem assignItem_keeps_names_unique data split item names :
  NoDup (List.map person_name split) ->
  NoDup (List.map person_name (assignItem data split item names)).
Proof.
  intros Hnd. unfold assignItem.
  rewrite recalculateBillSplit_names.
  apply NoDup_map_filter.
  assert (Hclear : List.map person_name (List.map (removeItem (item_name item)) split)
                   = List.map person_name split).
  { rewrite map_map. apply map_ext. intros person. reflexivity. }
  destruct (0 <? List.length names).
  - rewrite forEach_names, Hclear. apply NoDup_fold_pushUnique. exact Hnd.
  - rewrite Hclear. exact Hnd.
Qed.

(** X26. Recalculating twice is recalculating once, and the split a manual
    assignment produces is already recalculated: running
    [recalculateBillSplit] on it, with the same receipt, changes nothing. *)
Theorem assignItem_is_recalculated data split item names :
  recalculateBillSplit data (recalculateBillSplit data split)
  = recalculateBillSplit data split
  /\ recalculateBillSplit data (assignItem data split item names)
     = assignItem data split item names.
Proof.
  split.
  - apply recalculateBillSplit_idempotent.
  - unfold assignItem. apply recalculateBillSplit_idempotent.
Qed.

(** X27. After a confirmed save of a draft, the effects of the two panels
    leave the log at the single reset notice (it is not replaced by the
    loaded-notice), drop the draft and leave the receipt and the empty
    split as committed. *)
Theorem handleSaveReceipt_then_effects st (draft : ReceiptData num) :
  editingReceiptData st = Some draft ->
  let st' := editingEffect (chatEffect (handleSaveReceipt true st)) in
  receiptData st' = Some draft
  /\ billSplit st' = []
  /\ chatMessages st' = [receiptUpdatedNotice]
  /\ isReceiptEditing st' = false
  /\ editingReceiptData st' = None.
Proof.
  intros Hd. cbn zeta. unfold handleSaveReceipt. rewrite Hd.
  repeat split.
Qed.

End ConsistencyFacts.

Section ExactShareFacts.

Local Open Scope Qc_scope.

(** X28. In exact arithmetic, for a receipt with a non-zero subtotal whose
    total is subtotal + tax + tip, the recalculated total of every person
    is the receipt's total scaled by the person's part of the subtotal. *)
Theorem recalculateBillSplit_share_of_total (receipt : ReceiptData Qc)
    (split : BillSplit Qc) (i : nat) (person : PersonSplit Qc) :
  subtotal receipt <> 0 ->
  totalIsDerived receipt ->
  nth_error split i = Some person ->
  exists share,
    nth_error (recalculateBillSplit (Some receipt) split) i = Some share
    /\ p_total share
       = total receipt
         * (sumOf (List.map a_price (p_items person)) / subtotal receipt).
Proof.
  intros Hnz Htot Hnth. unfold recalculateBillSplit.
  destruct (isZero (subtotal receipt)) eqn:Hz.
  { apply isZero_exact in Hz. contradiction. }
  exists (recalculatePerson receipt person). split.
  - rewrite nth_error_map, Hnth. reflexivity.
  - destruct (recalculatePerson_exact receipt person) as (_ & _ & _ & Ht).
    cbn zeta in Ht. rewrite Ht. unfold totalIsDerived in Htot. rewrite Htot.
    field. exact Hnz.
Qed.

End ExactShareFacts.

(** ** More concrete runs *)

Section MoreRuns.

Import Sample SampleSession.


Lemma cleanName_Alice : cleanName "Alice".
Proof. split; [discriminate | split; reflexivity]. Defined.

Lemma cleanName_Bob : cleanName "Bob".
Proof. split; [discriminate | split; reflexivity]. Defined.



Lemma edit_session_cancel_restores_witness :
  isReceiptEditing sessionF = false
  /\ editingReceiptData sessionF = None
  /\ editingEffect
       (setIsReceiptEditing false
          (runDraftActions someDraftActions
             (editingEffect (setIsReceiptEditing true sessionF))))
     = sessionF.
Proof.
  split; [reflexivity|]. split; [reflexivity|].
  apply (edit_session_cancel_restores someDraftActions sessionF); reflexivity.
Defined.

Lemma handleReceiptEdit_item_only_witness :
  editingReceiptData (session dinnerReceipt (Some nachosReceipt)) = Some nachosReceipt
  /\ editTarget (Edit_item_price 0 (exact 12 1)) = Some 0
  /\ 0 < List.length (items nachosReceipt)
  /\ exists newDraft,
       editingReceiptData
         (handleReceiptEdit (Edit_item_price 0 (exact 12 1))
            (session dinnerReceipt (Some nachosReceipt)))
       = Some newDraft
       /\ subtotal newDraft = subtotal nachosReceipt.
Proof.
  split; [reflexivity|]. split; [reflexivity|]. split; [simpl; lia|].
  destruct (handleReceiptEdit_item_only (Edit_item_price 0 (exact 12 1)) 0
              (session dinnerReceipt (Some nachosReceipt)) nachosReceipt
              eq_refl eq_refl)
    as [newDraft [Hd [Hs _]]].
  - simpl. lia.
  - exists newDraft. split; [exact Hd | exact Hs].
Defined.

Lemma handleReceiptEdit_out_of_range_witness :
  editingReceiptData (session dinnerReceipt (Some nachosReceipt)) = Some nachosReceipt
  /\ editTarget (Edit_item_price 5 (exact 12 1)) = Some 5
  /\ List.length (items nachosReceipt) <= 5
  /\ handleReceiptEdit (Edit_item_price 5 (exact 12 1))
       (session dinnerReceipt (Some nachosReceipt))
     = session dinnerReceipt (Some nachosReceipt).
Proof.
  split; [reflexivity|]. split; [reflexivity|]. split; [simpl; lia|].
  apply (handleReceiptEdit_out_of_range (Edit_item_price 5 (exact 12 1)) 5
           (session dinnerReceipt (Some nachosReceipt)) nachosReceipt
           eq_refl eq_refl).
  simpl. lia.
Defined.

Lemma handleAddItem_then_remove_witness :
  editingReceiptData (session dinnerReceipt (Some nachosReceipt)) = Some nachosReceipt
  /\ exists newDraft,
       editingReceiptData
         (handleRemoveItem (List.length (items nachosReceipt))
            (handleAddItem (session dinnerReceipt (Some nachosReceipt))))
       = Some newDraft
       /\ items newDraft = items nachosReceipt.
Proof.
  split; [reflexivity|].
  destruct (handleAddItem_then_remove (session dinnerReceipt (Some nachosReceipt))
              nachosReceipt eq_refl)
    as [newDraft [Hd [Hi _]]].
  exists newDraft. split; [exact Hd | exact Hi].
Defined.

Lemma handleFileChange_failure_discards_witness :
  (forall parsedData : ReceiptData binary64,
      UnparseableReceipt <> ParsedReceipt parsedData)
  /\ receiptData (handleFileChange true UnparseableReceipt sessionF) = None
  /\ billSplit (handleFileChange true UnparseableReceipt sessionF) = [].
Proof.
  assert (Hnot : forall parsedData : ReceiptData binary64,
             UnparseableReceipt <> ParsedReceipt parsedData)
    by (intros parsedData; discriminate).
  split; [exact Hnot|].
  destruct (handleFileChange_failure_discards sessionF UnparseableReceipt Hnot)
    as (Hr & Hb & _).
  split; [exact Hr | exact Hb].
Defined.



Lemma nachosReceipt_subtotal_nonzero : subtotal nachosReceipt <> 0%Qc.
Proof. intros H. apply (f_equal this) in H. vm_compute in H. discriminate H. Defined.

Lemma aliceNachos_assigned_sum :
  sumOf (List.map (fun p => sumOf (List.map a_price (p_items p))) [aliceNachos])
  = subtotal nachosReceipt.
Proof. apply Qc_is_canon. reflexivity. Defined.

Lemma recalculateBillSplit_shares_add_up_witness :
  subtotal nachosReceipt <> 0%Qc
  /\ sumOf (List.map (fun p => sumOf (List.map a_price (p_items p))) [aliceNachos])
     = subtotal nachosReceipt
  /\ sumOf (List.map p_total (recalculateBillSplit (Some nachosReceipt) [aliceNachos]))
     = (subtotal nachosReceipt + tax nachosReceipt + tip nachosReceipt)%Qc.
Proof.
  split; [exact nachosReceipt_subtotal_nonzero|].
  split; [exact aliceNachos_assigned_sum|].
  destruct (recalculateBillSplit_shares_add_up nachosReceipt [aliceNachos]
              nachosReceipt_subtotal_nonzero aliceNachos_assigned_sum)
    as (_ & _ & _ & Htot).
  exact Htot.
Defined.

Lemma dinnerReceipt_total_derived : totalIsDerived dinnerReceipt.
Proof. unfold totalIsDerived. apply Qc_is_canon. reflexivity. Defined.

Lemma edit_session_commit_total_witness :
  receiptData (session dinnerReceipt None) = Some dinnerReceipt
  /\ totalIsDerived dinnerReceipt
  /\ exists committed,
       receiptData
         (handleSaveReceipt true
            (runDraftActions someDraftActionsQ
               (editingEffect (setIsReceiptEditing true (session dinnerReceipt None)))))
       = Some committed
       /\ totalIsDerived committed.
Proof.
  split; [reflexivity|]. split; [exact dinnerReceipt_total_derived|].
  apply (edit_session_commit_total someDraftActionsQ (session dinnerReceipt None)
           dinnerReceipt eq_refl dinnerReceipt_total_derived).
Defined.


Lemma assignItem_whole_receipt_witness :
  ["Alice"; "Bob"; "Charlie"] <> []
  /\ subtotal nachosReceipt <> 0%Qc
  /\ price nachos = subtotal nachosReceipt
  /\ sumOf (List.map p_total
              (assignItem (Some nachosReceipt) [] nachos ["Alice"; "Bob"; "Charlie"]))
     = (subtotal nachosReceipt + tax nachosReceipt + tip nachosReceipt)%Qc.
Proof.
  assert (Hne : ["Alice"; "Bob"; "Charlie"] <> []) by discriminate.
  split; [exact Hne|]. split; [exact nachosReceipt_subtotal_nonzero|].
  split; [reflexivity|].
  destruct (assignItem_whole_receipt nachosReceipt nachos ["Alice"; "Bob"; "Charlie"]
              Hne nachosReceipt_subtotal_nonzero eq_refl)
    as (_ & _ & Htot).
  exact Htot.
Defined.

Lemma base64OfDataUrl_payload_witness :
  noComma "data:image/png;base64" = true
  /\ noComma "iVBORw0KGgo=" = true
  /\ base64OfDataUrl "data:image/png;base64,iVBORw0KGgo=" = Some "iVBORw0KGgo=".
Proof.
  split; [reflexivity|]. split; [reflexivity|].
  apply (base64OfDataUrl_payload "data:image/png;base64" "iVBORw0KGgo=");
    reflexivity.
Defined.

Lemma assignItem_keeps_names_unique_witness :
  NoDup (List.map person_name [aliceBurgerF])
  /\ NoDup (List.map person_name
              (assignItem (Some nachosReceiptF) [aliceBurgerF] nachosF
                 ["Bob"; "Alice"; "Bob"])).
Proof.
  assert (Hnd : NoDup (List.map person_name [aliceBurgerF])).
  { simpl. constructor; [intros [] | constructor]. }
  split; [exact Hnd|].
  apply (assignItem_keeps_names_unique (Some nachosReceiptF) [aliceBurgerF] nachosF
           ["Bob"; "Alice"; "Bob"] Hnd).
Defined.

Lemma handleSaveReceipt_then_effects_witness :
  editingReceiptData (session dinnerReceipt (Some nachosReceipt)) = Some nachosReceipt
  /\ chatMessages
       (editingEffect
          (chatEffect
             (handleSaveReceipt true (session dinnerReceipt (Some nachosReceipt)))))
     = [receiptUpdatedNotice].
Proof.
  split; [reflexivity|].
  destruct (handleSaveReceipt_then_effects
              (session dinnerReceipt (Some nachosReceipt)) nachosReceipt eq_refl)
    as (_ & _ & Hc & _).
  exact Hc.
Defined.

Lemma recalculateBillSplit_share_of_total_witness :
  subtotal dinnerReceipt <> 0%Qc
  /\ totalIsDerived dinnerReceipt
  /\ nth_error [aliceBurger] 0 = Some aliceBurger
  /\ exists share,
       nth_error (recalculateBillSplit (Some dinnerReceipt) [aliceBurger]) 0
       = Some share
       /\ p_total share
          = (total dinnerReceipt
             * (sumOf (List.map a_price (p_items aliceBurger))
                / subtotal dinnerReceipt))%Qc.
Proof.
  split; [exact dinnerReceipt_subtotal_nonzero|].
  split; [exact dinnerReceipt_total_derived|].
  split; [reflexivity|].
  apply (recalculateBillSplit_share_of_total dinnerReceipt [aliceBurger] 0 aliceBurger
           dinnerReceipt_subtotal_nonzero dinnerReceipt_total_derived eq_refl).
Defined.

End MoreRuns.
